(** * Error taxonomy and error-response middleware of the Express template

    A shallow embedding of [utils/error.util.ts] (the [AppError] class
    hierarchy), of [middlewares/error.middleware.ts] ([ErrorMiddleware.notFound]
    and [ErrorMiddleware.errorHandlerMiddleware]) and of the two [app.use]
    lines of [ExpressServer.initializeErrorHandling] that chain them; then
    of [ExpressServer.sanitizeInput], of the [connect] and [disconnect]
    methods of [RedisConnection] and [DatabaseConnection], and of
    [ExpressServer.start], whose calls of the libraries are recorded as
    events and whose results are given.

    JavaScript values are modelled by an inductive type with the language's
    truthiness, string conversion and property enumeration written out;
    the handler's single response is a value, an exception is a value too. *)

From Stdlib Require Import String Ascii List ZArith Bool DecimalString.
Import ListNotations.
Local Open Scope string_scope.

(** ** JavaScript values *)

Module Js.

(** The values the handler can meet in a property of the failure.
    [Number n] is the double nearest to the integer [n] (status codes,
    driver error codes) and [NaN] the number that is none; fractions are
    left out, the handler does no arithmetic.  A string is held as the
    bytes of its UTF-8 encoding.  An object is a plain object, the list of
    its properties in the order in which [Object.keys] enumerates them. *)
#[warnings="-register-all"]
Inductive Value : Type :=
| Undefined
| Null
| Bool (b : bool)
| Number (n : Z)
| Str (s : string)
| Object (props : list (string * Value))
| NaN.

(** A value of type [number] given to a constructor. *)
Inductive Num : Type :=
| Int (n : Z)
| NotANumber.

Definition of_number (x : Num) : Value :=
  match x with
  | Int n => Number n
  | NotANumber => NaN
  end.

(** [ToBoolean]: what [||] and [&&] test. *)
Definition truthy (v : Value) : bool :=
  match v with
  | Undefined | Null => false
  | Bool b => b
  | Number n => negb (n =? 0)%Z
  | Str s => negb (s =? "")
  | Object _ => true
  | NaN => false
  end.

(** [a || b] *)
Definition or (a b : Value) : Value := if truthy a then a else b.

(** [v === n] for a number literal [n]. *)
Definition strict_eq_number (v : Value) (n : Z) : bool :=
  match v with
  | Number m => (m =? n)%Z
  | _ => false
  end.

Definition nullish (v : Value) : bool :=
  match v with
  | Undefined | Null => true
  | _ => false
  end.

(** Property read on an object literal's property list: first binding of
    the key, [undefined] when there is none. *)
Fixpoint lookup (k : string) (props : list (string * Value)) : option Value :=
  match props with
  | [] => None
  | (k', v) :: rest => if k' =? k then Some v else lookup k rest
  end.

(** [v?.k]: [undefined] on [undefined] and [null], the property otherwise;
    primitives have no such property of their own. *)
Definition optional_get (v : Value) (k : string) : Value :=
  match v with
  | Object props =>
      match lookup k props with
      | Some x => x
      | None => Undefined
      end
  | _ => Undefined
  end.

Definition string_of_Z (n : Z) : string := NilZero.string_of_int (Z.to_int n).
Definition string_of_nat (n : nat) : string := string_of_Z (Z.of_nat n).

(** The integer that the double nearest to [n] holds, a tie going to the
    even mantissa of 53 bits; [None] when that double is an infinity. *)
Definition nearest_double (n : Z) : option Z :=
  let a := Z.abs n in
  if (a <? 2 ^ 53)%Z then Some n
  else
    let e := (Z.log2 a - 52)%Z in
    let q := (a / 2 ^ e)%Z in
    let r := (a mod 2 ^ e)%Z in
    let half := (2 ^ (e - 1))%Z in
    let q' :=
      if (r <? half)%Z then q
      else if (half <? r)%Z then (q + 1)%Z
      else if Z.even q then q else (q + 1)%Z in
    let v := (q' * 2 ^ e)%Z in
    if (v <? 2 ^ 1024)%Z then Some (Z.sgn n * v)%Z else None.

(** The decimal [c] reads back as the double [v]. *)
Definition round_trips (v c : Z) : bool :=
  match nearest_double c with
  | Some w => (w =? v)%Z
  | None => false
  end.

(** The decimal of [k] significant digits that reads back as [v], the one
    nearer to [v] when the two around [v] do; [len] is the number of digits
    of [v]. *)
Definition shortest_at (v len k : Z) : option Z :=
  let p := (10 ^ (len - k))%Z in
  let lo := (v / p * p)%Z in
  let hi := (lo + p)%Z in
  match round_trips v lo, round_trips v hi with
  | true, true =>
      Some (if (v - lo <? hi - v)%Z then lo
            else if (hi - v <? v - lo)%Z then hi
            else if Z.even (lo / p) then lo else hi)
  | true, false => Some lo
  | false, true => Some hi
  | false, false => None
  end.

Fixpoint shortest_from (fuel : nat) (v len k : Z) : Z :=
  match fuel with
  | O => v
  | S fuel' =>
      match shortest_at v len k with
      | Some c => c
      | None => shortest_from fuel' v len (k + 1)%Z
      end
  end.

(** The decimal with the fewest significant digits that reads back as the
    positive double [v]; seventeen digits always do. *)
Definition shortest_decimal (v : Z) : Z :=
  if (v <? 2 ^ 53)%Z then v
  else shortest_from 17 v (Z.of_nat (String.length (string_of_Z v))) 1.

Fixpoint strip_zeros (s : string) : string :=
  match s with
  | EmptyString => EmptyString
  | String c rest =>
      let r := strip_zeros rest in
      if ((r =? "") && (c =? "0")%char)%bool then EmptyString else String c r
  end.

(** [d.ddde+x] *)
Definition exponent_form (c : Z) : string :=
  let digits := string_of_Z c in
  let e := string_of_Z (Z.of_nat (String.length digits) - 1) in
  match strip_zeros digits with
  | String d EmptyString => String d ("e+" ++ e)
  | String d rest => String d ("." ++ rest ++ "e+" ++ e)
  | EmptyString => digits
  end.

(** [Number::toString] on the double nearest to [n]: the shortest decimal
    that reads back as it, written in full below 10^21 and with an
    exponent from there on. *)
Definition number_to_string (n : Z) : string :=
  match nearest_double n with
  | None => if (n <? 0)%Z then "-Infinity" else "Infinity"
  | Some v =>
      let c := shortest_decimal (Z.abs v) in
      let text :=
        if (c <? 10 ^ 21)%Z then string_of_Z c else exponent_form c in
      if (v <? 0)%Z then "-" ++ text else text
  end.

(** [ToString], as a template literal [`${v}`] applies it.  A plain object
    prints as ["[object Object]"]. *)
Definition to_string (v : Value) : string :=
  match v with
  | Undefined => "undefined"
  | Null => "null"
  | Bool true => "true"
  | Bool false => "false"
  | Number n => number_to_string n
  | Str s => s
  | Object _ => "[object Object]"
  | NaN => "NaN"
  end.

(** The code unit [u], from 0x0800 on, as the three bytes of its UTF-8
    form; this is how a surrogate standing alone is written here. *)
Definition unit3 (u : N) : string :=
  String (ascii_of_N (224 + u / 4096))
    (String (ascii_of_N (128 + (u / 64) mod 64))
       (String (ascii_of_N (128 + u mod 64)) EmptyString)).

(** The UTF-16 code units of a string, each as a string, which is what
    enumerating a string primitive's indexed properties yields: a
    character of one, two or three bytes is one unit, a character of four
    bytes is the two surrogates of its pair. *)
Fixpoint chars (s : string) : list string :=
  match s with
  | EmptyString => []
  | String c0 rest0 =>
      if (N_of_ascii c0 <? 192)%N then String c0 EmptyString :: chars rest0
      else
        match rest0 with
        | EmptyString => [String c0 EmptyString]
        | String c1 rest1 =>
            if (N_of_ascii c0 <? 224)%N then
              String c0 (String c1 EmptyString) :: chars rest1
            else
              match rest1 with
              | EmptyString => [String c0 (String c1 EmptyString)]
              | String c2 rest2 =>
                  if (N_of_ascii c0 <? 240)%N then
                    String c0 (String c1 (String c2 EmptyString))
                    :: chars rest2
                  else
                    match rest2 with
                    | EmptyString =>
                        [String c0 (String c1 (String c2 EmptyString))]
                    | String c3 rest3 =>
                        let point :=
                          ((N_of_ascii c0 mod 8) * 262144
                           + (N_of_ascii c1 mod 64) * 4096
                           + (N_of_ascii c2 mod 64) * 64
                           + N_of_ascii c3 mod 64)%N in
                        let u := (point - 65536)%N in
                        unit3 (55296 + u / 1024)
                        :: unit3 (56320 + u mod 1024)
                        :: chars rest3
                    end
              end
        end
  end.

(** A call either completes with a value or throws. *)
Inductive Completion (A : Type) : Type :=
| Normal (a : A)
| Throw (error : string).
Arguments Normal {A} a.
Arguments Throw {A} error.

Definition TypeError_not_object : string :=
  "TypeError: Cannot convert undefined or null to object".

(** [Object.values(v)]: throws on [undefined] and [null]; the property
    values of an object; the code units of a string; nothing for the other
    primitives. *)
Definition Object_values (v : Value) : Completion (list Value) :=
  match v with
  | Undefined | Null => Throw TypeError_not_object
  | Object props => Normal (map snd props)
  | Str s => Normal (map Str (chars s))
  | Bool _ | Number _ | NaN => Normal []
  end.

(** [Object.keys(v)], same cases; a string's keys are the indices of its
    code units. *)
Definition Object_keys (v : Value) : Completion (list string) :=
  match v with
  | Undefined | Null => Throw TypeError_not_object
  | Object props => Normal (map fst props)
  | Str s => Normal (map string_of_nat (seq 0 (List.length (chars s))))
  | Bool _ | Number _ | NaN => Normal []
  end.

(** One element of [Array.prototype.join]: [undefined] and [null] print
    as the empty string. *)
Definition join_item (v : Value) : string :=
  if nullish v then "" else to_string v.

(** [arr.join(sep)] *)
Definition join (sep : string) (arr : list Value) : string :=
  String.concat sep (map join_item arr).

(** [`${arr}`] for an array of strings: [Array.prototype.toString] joins
    with a comma. *)
Definition array_to_string (arr : list string) : string :=
  String.concat "," arr.

End Js.

(** ** utils/error.util.ts *)

Module ErrorUtil.
Import Js.

(** The prototype that [Object.setPrototypeOf(this, X.prototype)] leaves on
    the object; [Error_prototype] is a failure not built by this file's
    classes (a driver or runtime error). *)
Inductive Prototype : Type :=
| Error_prototype
| AppError_prototype
| BadRequestError_prototype
| NotFoundError_prototype
| UnauthorizedError_prototype
| ForbiddenError_prototype
| ConflictError_prototype
| RateLimitError_prototype
| ServiceUnavailableError_prototype
| QueueTimeoutError_prototype.

(** An error object as the middleware reads it.  [name], [message] and
    [stack] are the fields of the built-in [Error] ([stack] is optional);
    [statusCode], [isOperational] and [originalError] are those of
    [AppError]; [errors], [path], [code] and [keyValue] are the ones the
    middleware reads through its casts to the Mongoose and MongoDB
    interfaces.  A property the object does not have reads [Undefined]. *)
Record JsError : Type := mkJsError {
  proto : Prototype;
  name : string;
  message : string;
  stack : option string;
  statusCode : Value;
  isOperational : Value;
  originalError : Value;
  errors : Value;
  path : Value;
  code : Value;
  keyValue : Value
}.

(** [new Error(message)]; [trace] is the stack text the engine records. *)
Definition Error_new (trace message_ : string) : JsError :=
  {| proto := Error_prototype; name := "Error"; message := message_;
     stack := Some trace;
     statusCode := Undefined; isOperational := Undefined;
     originalError := Undefined;
     errors := Undefined; path := Undefined; code := Undefined;
     keyValue := Undefined |}.

(** A parameter with a default value: the default replaces an omitted
    ([undefined]) argument only. *)
Definition default_arg {A : Type} (arg : option A) (dflt : A) : A :=
  match arg with
  | Some a => a
  | None => dflt
  end.

Definition setPrototypeOf (this : JsError) (p : Prototype) : JsError :=
  {| proto := p; name := name this; message := message this;
     stack := stack this;
     statusCode := statusCode this; isOperational := isOperational this;
     originalError := originalError this;
     errors := errors this; path := path this; code := code this;
     keyValue := keyValue this |}.

(** [new AppError(message, statusCode = 500, originalError = null)];
    [statusCode] is any number, [NaN] included; [Error.captureStackTrace]
    stores [trace]. *)
Definition AppError_new (trace message_ : string) (statusCode_ : option Num)
    (originalError_ : option Value) : JsError :=
  let this := Error_new trace message_ in
  {| proto := AppError_prototype; name := name this; message := message this;
     stack := Some trace;
     statusCode := of_number (default_arg statusCode_ (Int 500));
     isOperational := Bool true;
     originalError := default_arg originalError_ Null;
     errors := errors this; path := path this; code := code this;
     keyValue := keyValue this |}.

Definition BadRequestError_new (trace : string) (message_ : option string)
    (err : option Value) : JsError :=
  setPrototypeOf
    (AppError_new trace (default_arg message_ "Validation failed")
       (Some (Int 400)) (Some (default_arg err Null)))
    BadRequestError_prototype.

Definition NotFoundError_new (trace : string) (message_ : option string)
    (err : option Value) : JsError :=
  setPrototypeOf
    (AppError_new trace (default_arg message_ "Resource not found")
       (Some (Int 404)) (Some (default_arg err Null)))
    NotFoundError_prototype.

Definition UnauthorizedError_new (trace : string) (message_ : option string)
    (err : option Value) : JsError :=
  setPrototypeOf
    (AppError_new trace (default_arg message_ "Unauthorized access")
       (Some (Int 401)) (Some (default_arg err Null)))
    UnauthorizedError_prototype.

Definition ForbiddenError_new (trace : string) (message_ : option string)
    (err : option Value) : JsError :=
  setPrototypeOf
    (AppError_new trace (default_arg message_ "Forbidden access")
       (Some (Int 403)) (Some (default_arg err Null)))
    ForbiddenError_prototype.

Definition ConflictError_new (trace : string) (message_ : option string)
    (err : option Value) : JsError :=
  setPrototypeOf
    (AppError_new trace (default_arg message_ "Resource conflict")
       (Some (Int 409)) (Some (default_arg err Null)))
    ConflictError_prototype.

Definition RateLimitError_new (trace : string) (message_ : option string)
    : JsError :=
  setPrototypeOf
    (AppError_new trace (default_arg message_ "Rate limit exceeded")
       (Some (Int 429)) None)
    RateLimitError_prototype.

Definition ServiceUnavailableError_new (trace : string)
    (message_ : option string) : JsError :=
  setPrototypeOf
    (AppError_new trace
       (default_arg message_ "Service temporarily unavailable")
       (Some (Int 503)) None)
    ServiceUnavailableError_prototype.

Definition QueueTimeoutError_new (trace : string) (message_ : option string)
    : JsError :=
  setPrototypeOf
    (AppError_new trace (default_arg message_ "504 Gateway Timeout")
       (Some (Int 504)) None)
    QueueTimeoutError_prototype.

(** [err instanceof AppError]: [AppError.prototype] is on the prototype
    chain of the base class and of its eight subclasses. *)
Definition instanceof_AppError (err : JsError) : bool :=
  match proto err with
  | Error_prototype => false
  | _ => true
  end.

(** [err.stack] as a value. *)
Definition stack_value (err : JsError) : Value :=
  match stack err with
  | Some s => Str s
  | None => Undefined
  end.

End ErrorUtil.

(** ** middlewares/error.middleware.ts *)

Module ErrorMiddleware.
Import Js ErrorUtil.

(** The two fields of the Express request that the middleware reads. *)
Record Request : Type := mkRequest {
  url : string;
  originalUrl : string
}.

(** [process.env], of which only [NODE_ENV] is read; [None] is an unset
    variable. *)
Record ProcessEnv : Type := mkProcessEnv {
  NODE_ENV : option string
}.

(** The call [res.status(code).json(body)]: the status it is given and the
    fields of the body in the order of the object literal.  A field whose
    value is [Undefined] is a key of the object that JSON serialisation
    omits. *)
Record HttpResponse : Type := mkHttpResponse {
  status : Value;
  body : list (string * Value)
}.

(** How a middleware call ends: it answered the request, it called
    [next(err)], or its promise rejected with an exception. *)
Inductive Outcome : Type :=
| Responded (res : HttpResponse)
| NextWith (err : JsError)
| Rejected (error : string).

(** A middleware call: the lines written with [console.error], then its
    outcome. *)
Record Effect : Type := mkEffect {
  console : list string;
  outcome : Outcome
}.

(** The local object [defaultError] of the handler. *)
Module DefaultError.
Record t : Type := mk {
  statusCode : Value;
  msg : string;
  originalError : Value
}.
End DefaultError.

Definition bind {A B : Type} (c : Completion A) (k : A -> Completion B)
    : Completion B :=
  match c with
  | Normal a => k a
  | Throw e => Throw e
  end.

Notation "'let*' x ':=' c 'in' k" := (bind c (fun x => k))
  (at level 10, x name, c at level 100, k at level 200).

(** [s || fallback] on strings: the empty string is the falsy one. *)
Definition or_string (s fallback : string) : string :=
  if s =? "" then fallback else s.

(** [url.replace(/^\/api/, "")]: the four characters [/api] are removed when
    the string starts with them, whatever follows. *)
Definition replace_api_prefix (u : string) : string :=
  match u with
  | String "/" (String "a" (String "p" (String "i" rest))) => rest
  | _ => u
  end.

(** [ErrorMiddleware.notFound]: [trace] is the stack captured by the
    [NotFoundError] it builds. *)
Definition notFound (trace : string) (_req : Request) : Effect :=
  {| console := [];
     outcome :=
       NextWith
         (NotFoundError_new trace
            (Some ("Route not found : " ++ url _req)) None) |}.

(** [if (err.name === "ValidationError") { ... }] *)
Definition validation_step (err : JsError) (defaultError : DefaultError.t)
    : Completion DefaultError.t :=
  if name err =? "ValidationError" then
    let* values := Object_values (errors err) in
    Normal
      {| DefaultError.statusCode := Number 500;
         DefaultError.msg :=
           join "," (map (fun item => optional_get item "message") values);
         DefaultError.originalError :=
           DefaultError.originalError defaultError |}
  else Normal defaultError.

(** [if (err.name === "CastError") { ... }] *)
Definition cast_step (err : JsError) (defaultError : DefaultError.t)
    : DefaultError.t :=
  if name err =? "CastError" then
    {| DefaultError.statusCode := Number 400;
       DefaultError.msg :=
         "Resource not found. Invalid: " ++ to_string (path err);
       DefaultError.originalError :=
         DefaultError.originalError defaultError |}
  else defaultError.

(** [mongoErr.code && mongoErr.code === 11000] *)
Definition is_duplicate_key (err : JsError) : bool :=
  truthy (code err) && strict_eq_number (code err) 11000.

(** [if (mongoErr.code && mongoErr.code === 11000) { ... }] *)
Definition duplicate_step (err : JsError) (defaultError : DefaultError.t)
    : Completion DefaultError.t :=
  if is_duplicate_key err then
    let* keys := Object_keys (or (keyValue err) (Object [])) in
    Normal
      {| DefaultError.statusCode := Number 400;
         DefaultError.msg := array_to_string keys ++ " field has to be unique";
         DefaultError.originalError :=
           DefaultError.originalError defaultError |}
  else Normal defaultError.

(** [process.env.NODE_ENV === "development"] *)
Definition is_development (env : ProcessEnv) : bool :=
  match NODE_ENV env with
  | Some mode => mode =? "development"
  | None => false
  end.

(** The classification of a failure that is not an [AppError], up to the
    final [res.status(...).json(...)]. *)
Definition render_unclassified (env : ProcessEnv) (now : string)
    (err : JsError) (req : Request) (defaultError : DefaultError.t)
    : Completion HttpResponse :=
  let* d1 := validation_step err defaultError in
  let d2 := cast_step err d1 in
  let* d3 := duplicate_step err d2 in
  Normal
    {| status := DefaultError.statusCode d3;
       body :=
         [ ("success", Bool false);
           ("message", Str (DefaultError.msg d3));
           ("statusCode", DefaultError.statusCode d3);
           ("timestamp", Str now);
           ("path", Str (url req)) ]
         ++ (if is_development env then [("stack", stack_value err)]
             else []) |}.

(** [ErrorMiddleware.errorHandlerMiddleware]; [now] is what
    [new Date().toISOString()] returns. *)
Definition errorHandlerMiddleware (env : ProcessEnv) (now : string)
    (err : JsError) (req : Request) : Effect :=
  let defaultError :=
    {| DefaultError.statusCode := or (statusCode err) (Number 500);
       DefaultError.msg :=
         or_string (message err) "Something went wrong, try again later";
       DefaultError.originalError := or (originalError err) (Str "Error") |}
  in
  {| console := ["(StackTrace): " ++ to_string (stack_value err)];
     outcome :=
       if instanceof_AppError err then
         Responded
           {| status := DefaultError.statusCode defaultError;
              body :=
                [ ("success", Bool false);
                  ("error", Bool true);
                  ("message", Str (DefaultError.msg defaultError));
                  ("originalError", DefaultError.originalError defaultError);
                  ("statusCode", DefaultError.statusCode defaultError);
                  ("timestamp", Str now);
                  ("path", Str (replace_api_prefix (originalUrl req))) ] |}
       else
         match render_unclassified env now err req defaultError with
         | Normal res => Responded res
         | Throw e => Rejected e
         end |}.

End ErrorMiddleware.

(** ** loaders/express.ts, [initializeErrorHandling] *)

Module ExpressServer.
Import Js ErrorUtil ErrorMiddleware.

(** [app.use(ErrorMiddleware.notFound); app.use(ErrorMiddleware.errorHandlerMiddleware)]:
    a request that no route answered reaches [notFound]; the failure it
    passes to [next] goes to the error handler, with the same request. *)
Definition unmatchedRoute (env : ProcessEnv) (now trace : string)
    (req : Request) : Effect :=
  let first := notFound trace req in
  match outcome first with
  | NextWith err =>
      let second := errorHandlerMiddleware env now err req in
      {| console := console first ++ console second;
         outcome := outcome second |}
  | _ => first
  end.

End ExpressServer.

(** ** Vocabulary of the statements *)

Import Js ErrorUtil ErrorMiddleware ExpressServer.

(** The nine failure kinds: [Generic] is the base class [AppError], the
    others its subclasses [BadRequestError], [NotFoundError],
    [UnauthorizedError], [ForbiddenError], [ConflictError],
    [RateLimitError], [ServiceUnavailableError] and [QueueTimeoutError]. *)
Inductive Kind : Type :=
| Generic
| BadRequest
| NotFound
| Unauthorized
| Forbidden
| Conflict
| RateLimited
| ServiceUnavailable
| QueueTimeout.

(** [new K(msg)]: the class of the kind, called with a message and nothing
    else. *)
Definition construct (k : Kind) (trace msg : string) : JsError :=
  match k with
  | Generic => AppError_new trace msg None None
  | BadRequest => BadRequestError_new trace (Some msg) None
  | NotFound => NotFoundError_new trace (Some msg) None
  | Unauthorized => UnauthorizedError_new trace (Some msg) None
  | Forbidden => ForbiddenError_new trace (Some msg) None
  | Conflict => ConflictError_new trace (Some msg) None
  | RateLimited => RateLimitError_new trace (Some msg)
  | ServiceUnavailable => ServiceUnavailableError_new trace (Some msg)
  | QueueTimeout => QueueTimeoutError_new trace (Some msg)
  end.

(** [new K()]: the class called with no argument.  [AppError] declares its
    message without a default, so the base class has no such call. *)
Definition construct_default (k : Kind) (trace : string) : option JsError :=
  match k with
  | Generic => None
  | BadRequest => Some (BadRequestError_new trace None None)
  | NotFound => Some (NotFoundError_new trace None None)
  | Unauthorized => Some (UnauthorizedError_new trace None None)
  | Forbidden => Some (ForbiddenError_new trace None None)
  | Conflict => Some (ConflictError_new trace None None)
  | RateLimited => Some (RateLimitError_new trace None)
  | ServiceUnavailable => Some (ServiceUnavailableError_new trace None)
  | QueueTimeout => Some (QueueTimeoutError_new trace None)
  end.

(** The status column of the specification's table of kinds. *)
Definition spec_default_status (k : Kind) : Z :=
  match k with
  | Generic => 500
  | BadRequest => 400
  | NotFound => 404
  | Unauthorized => 401
  | Forbidden => 403
  | Conflict => 409
  | RateLimited => 429
  | ServiceUnavailable => 503
  | QueueTimeout => 504
  end.

(** The message column of the specification's table of kinds. *)
Definition spec_default_message (k : Kind) : string :=
  match k with
  | Generic => "Something went wrong, try again later"
  | BadRequest => "Validation failed"
  | NotFound => "Resource not found"
  | Unauthorized => "Unauthorized access"
  | Forbidden => "Forbidden access"
  | Conflict => "Resource conflict"
  | RateLimited => "Rate limit exceeded"
  | ServiceUnavailable => "Service temporarily unavailable"
  | QueueTimeout => "Gateway Timeout"
  end.

(** The failures that the classes of [error.util.ts] can build, with any
    arguments. *)
Inductive Constructed : JsError -> Prop :=
| Constructed_AppError trace m s o :
    Constructed (AppError_new trace m s o)
| Constructed_BadRequestError trace m o :
    Constructed (BadRequestError_new trace m o)
| Constructed_NotFoundError trace m o :
    Constructed (NotFoundError_new trace m o)
| Constructed_UnauthorizedError trace m o :
    Constructed (UnauthorizedError_new trace m o)
| Constructed_ForbiddenError trace m o :
    Constructed (ForbiddenError_new trace m o)
| Constructed_ConflictError trace m o :
    Constructed (ConflictError_new trace m o)
| Constructed_RateLimitError trace m :
    Constructed (RateLimitError_new trace m)
| Constructed_ServiceUnavailableError trace m :
    Constructed (ServiceUnavailableError_new trace m)
| Constructed_QueueTimeoutError trace m :
    Constructed (QueueTimeoutError_new trace m).

(** [p] occurs in [s]. *)
Definition contains (p s : string) : Prop :=
  exists before after, s = before ++ p ++ after.

(** The failure that [notFound] hands to [next], if it does. *)
Definition raised (e : Effect) : option JsError :=
  match outcome e with
  | NextWith err => Some err
  | _ => None
  end.

(** A failure can go through the validation branch: when its name selects
    that branch, [Object.values] has something to enumerate. *)
Definition errors_enumerable (err : JsError) : Prop :=
  name err = "ValidationError" -> nullish (errors err) = false.

(** An [Error] that no class of the taxonomy built, with the given
    properties next to [name], [message] and [stack]. *)
Definition foreign_error (name_ message_ : string) (stack_ : option string)
    (statusCode_ errors_ path_ code_ keyValue_ : Value) : JsError :=
  {| proto := Error_prototype; name := name_; message := message_;
     stack := stack_;
     statusCode := statusCode_; isOperational := Undefined;
     originalError := Undefined;
     errors := errors_; path := path_; code := code_;
     keyValue := keyValue_ |}.

(** The body that the handler sends for a failure outside the taxonomy,
    once [defaultError] has its final value. *)
Definition unclassified_response (env : ProcessEnv) (now : string)
    (err : JsError) (req : Request) (d : DefaultError.t) : HttpResponse :=
  {| status := DefaultError.statusCode d;
     body :=
       [ ("success", Bool false);
         ("message", Str (DefaultError.msg d));
         ("statusCode", DefaultError.statusCode d);
         ("timestamp", Str now);
         ("path", Str (url req)) ]
       ++ (if is_development env then [("stack", stack_value err)]
           else []) |}.

(** [err] with other values in the five properties that the structural
    branches of the handler read. *)
Definition with_shape (err : JsError) (name_ : string)
    (errors_ path_ code_ keyValue_ : Value) : JsError :=
  {| proto := proto err; name := name_; message := message err;
     stack := stack err;
     statusCode := statusCode err; isOperational := isOperational err;
     originalError := originalError err;
     errors := errors_; path := path_; code := code_;
     keyValue := keyValue_ |}.

Definition production : ProcessEnv := {| NODE_ENV := Some "production" |}.
Definition development : ProcessEnv := {| NODE_ENV := Some "development" |}.

(** ** loaders/express.ts, [sanitizeInput] *)

Module SanitizeInput.
Import Js.

(** [const sanitize = (data) => typeof data === "string" ? xss(data) : data];
    [xss] is the filter of the [xss] package. *)
Definition sanitize (xss : string -> string) (data : Value) : Value :=
  match data with
  | Str s => Str (xss s)
  | _ => data
  end.

(** [obj[k] = v]: an existing property keeps its place in the enumeration
    order, a new one goes last. *)
Fixpoint assign (k : string) (v : Value) (props : list (string * Value))
    : list (string * Value) :=
  match props with
  | [] => [(k, v)]
  | (k', v') :: rest =>
      if k' =? k then (k', v) :: rest else (k', v') :: assign k v rest
  end.

(** [for (const k in obj) { obj[k] = sanitize(obj[k]); }]: the keys are
    those the object has when the loop starts; every round reads and writes
    the object as the earlier rounds left it. *)
Definition sanitize_properties (xss : string -> string)
    (props : list (string * Value)) : list (string * Value) :=
  fold_left
    (fun obj k => assign k (sanitize xss (optional_get (Object obj) k)) obj)
    (map fst props) props.

Definition TypeError_read_only (s : string) : string :=
  "TypeError: Cannot assign to read only property '0' of string '"
  ++ s ++ "'".

(** How the request holds one of [body], [query], [params].  The code
    reads [req[reqKey]] anew at every use: a data property gives the same
    object each time, so that a write is seen by the next read; an accessor
    builds a fresh value at every read (as [req.query] does, which parses
    the URL again), so that a write goes to an object nobody else holds. *)
Inductive Slot : Type :=
| Data (v : Value)
| Accessor (fresh : Value).

(** [req[reqKey]] *)
Definition read (part : Slot) : Value :=
  match part with
  | Data v => v
  | Accessor fresh => fresh
  end.

(** The body of the [forEach] callback for one of [req.body], [req.query],
    [req.params], and the property as the next reader finds it: nothing
    happens on a falsy value; an object held in a data property has its
    properties rewritten in place, one built by an accessor is enumerated
    and every write is lost; a number or boolean has nothing to enumerate;
    a non-empty string enumerates its indices and the first assignment to
    one throws, the module being strict code. *)
Definition sanitize_part (xss : string -> string) (part : Slot)
    : Completion Slot :=
  if truthy (read part) then
    match read part with
    | Object props =>
        match part with
        | Data _ => Normal (Data (Object (sanitize_properties xss props)))
        | Accessor fresh => Normal (Accessor fresh)
        end
    | Str s => Throw (TypeError_read_only s)
    | _ => Normal part
    end
  else Normal part.

End SanitizeInput.

(** ** Effects of the connection and start-up code *)

Module Proc.
Import Js.

(** A value caught by [catch (error)]: an [Error] with its message and
    stack, or anything else. *)
Inductive Thrown : Type :=
| ThrownError (message : string) (stack : option string)
| ThrownValue (v : Value).

(** [error instanceof Error ? error.message : fallback] *)
Definition message_or (error : Thrown) (fallback : string) : string :=
  match error with
  | ThrownError message _ => message
  | ThrownValue _ => fallback
  end.

(** [`${error instanceof Error ? error.stack : ""}`] *)
Definition stack_or_empty (error : Thrown) : string :=
  match error with
  | ThrownError _ (Some stack) => stack
  | ThrownError _ None => "undefined"
  | ThrownValue _ => ""
  end.

(** What the code does to the outside, in order.  The lines that the
    listeners registered by [setupEventListeners] print when a library fires
    them are not part of a call and are left out. *)
Inductive Event : Type :=
| ConsoleLog (line : string)
| ConsoleError (line : string)
| MongooseConnect (url : string)
| MongooseDisconnect
| RedisClientConnect
| RedisClientQuit
| Listen (port : Z) (host : string)
| ProcessExit (code : Z).

(** How an awaited call of a library ends. *)
Inductive Attempt (A : Type) : Type :=
| Fulfilled (a : A)
| Failed (error : Thrown).
Arguments Fulfilled {A} a.
Arguments Failed {A} error.

(** How a call of this code ends: it returns (its promise resolves), it
    throws (its promise rejects), or [process.exit] ended the process. *)
Inductive Result (A : Type) : Type :=
| Returned (a : A)
| Raised (error : Thrown)
| Exited (code : Z).
Arguments Returned {A} a.
Arguments Raised {A} error.
Arguments Exited {A} code.

Record Run (S A : Type) : Type := mkRun {
  state : S;
  events : list Event;
  result : Result A
}.
Arguments mkRun {S A} state events result.
Arguments state {S A} r.
Arguments events {S A} r.
Arguments result {S A} r.

(** A computation over the mutable object of type [S]. *)
Definition M (S A : Type) : Type := S -> Run S A.

Definition ret {S A : Type} (a : A) : M S A :=
  fun s => mkRun s [] (Returned a).

Definition bind {S A B : Type} (m : M S A) (k : A -> M S B) : M S B :=
  fun s =>
    let r := m s in
    match result r with
    | Returned a =>
        let r' := k a (state r) in
        mkRun (state r') (events r ++ events r') (result r')
    | Raised error => mkRun (state r) (events r) (Raised error)
    | Exited code => mkRun (state r) (events r) (Exited code)
    end.

Notation "x <- c1 ;; c2" := (bind c1 (fun x => c2))
  (at level 61, c1 at next level, right associativity).
Notation "c1 ;; c2" := (bind c1 (fun _ => c2))
  (at level 61, right associativity).

(** [throw error] *)
Definition throw {S A : Type} (error : Thrown) : M S A :=
  fun s => mkRun s [] (Raised error).

(** [try { m } catch (error) { handler }] *)
Definition try_catch {S A : Type} (m : M S A) (handler : Thrown -> M S A)
    : M S A :=
  fun s =>
    let r := m s in
    match result r with
    | Raised error =>
        let r' := handler error (state r) in
        mkRun (state r') (events r ++ events r') (result r')
    | _ => r
    end.

Definition emit {S : Type} (e : Event) : M S unit :=
  fun s => mkRun s [e] (Returned tt).

Definition console_log {S : Type} (line : string) : M S unit :=
  emit (ConsoleLog line).

Definition console_error {S : Type} (line : string) : M S unit :=
  emit (ConsoleError line).

(** [process.exit(code)] *)
Definition process_exit {S A : Type} (code : Z) : M S A :=
  fun s => mkRun s [ProcessExit code] (Exited code).

(** A call of a library, recorded as [e], that ends as [attempt] says. *)
Definition call {S A : Type} (e : Event) (attempt : Attempt A) : M S A :=
  fun s =>
    mkRun s [e]
      match attempt with
      | Fulfilled a => Returned a
      | Failed error => Raised error
      end.

(** [process.env]: the value of a variable, [None] when it is unset. *)
Definition Env : Type := string -> option string.

(** [process.env[v]] as a condition. *)
Definition env_truthy (env : Env) (v : string) : bool :=
  match env v with
  | Some value => negb (value =? "")
  | None => false
  end.

End Proc.

(** ** configs/redis.config.ts *)

Module RedisConnection.
Import Js Proc.

(** The field [connected] of the class; the client belongs to [ioredis]. *)
Record t : Type := mk {
  connected : bool
}.

Definition set_connected (b : bool) : M t unit :=
  fun _ => mkRun {| connected := b |} [] (Returned tt).

Definition get_connected : M t bool :=
  fun this => mkRun this [] (Returned (connected this)).

(** [connect()]: [status] is [this.client.status] on entry, [client_connect]
    the way [this.client.connect()] ends if it is called. *)
Definition connect (status : string) (client_connect : Attempt unit)
    : M t unit :=
  if ((status =? "ready") || (status =? "connect")
      || (status =? "connecting"))%bool then
    console_log ("[REDIS] Already " ++ status ++ ", skipping connect") ;;
    set_connected true ;;
    ret tt
  else
    try_catch
      (call RedisClientConnect client_connect ;;
       set_connected true ;;
       console_log "[REDIS] Redis connected successfully")
      (fun error =>
         console_error
           ("[REDIS] Failed to connect: " ++ message_or error "Unknown error") ;;
         throw error).

(** [disconnect()]: [client_quit] is the way [this.client.quit()] ends if
    it is called. *)
Definition disconnect (client_quit : Attempt unit) : M t unit :=
  is_connected <- get_connected ;;
  if negb is_connected then ret tt
  else
    try_catch
      (call RedisClientQuit client_quit ;;
       set_connected false ;;
       console_log "[REDIS] Redis disconnected successfully")
      (fun error =>
         console_error
           ("[REDIS] Error during disconnect: "
            ++ message_or error "Unknown error") ;;
         throw error).

End RedisConnection.

(** ** configs/db.config.ts *)

Module DatabaseConnection.
Import Js Proc.

(** The field [url] that the constructor sets:
    [process.env.MONGODB_URI || "mongodb://localhost:27017/example"]. *)
Definition new (env : Env) : string :=
  match env "MONGODB_URI" with
  | Some uri =>
      if uri =? "" then "mongodb://localhost:27017/example" else uri
  | None => "mongodb://localhost:27017/example"
  end.

(** [connect()]: [mongoose_connect] is the way [mongoose.connect] ends,
    with the host of the connection when it succeeds. *)
Definition connect {S : Type} (url : string)
    (mongoose_connect : Attempt string) : M S unit :=
  try_catch
    (host <- call (MongooseConnect url) mongoose_connect ;;
     console_log ("MongoDB Connected: " ++ host))
    (fun error =>
       console_error
         ("Initial MongoDB connection error: "
          ++ message_or error "Unknown error") ;;
       process_exit 1).

(** [disconnect()] *)
Definition disconnect {S : Type} (mongoose_disconnect : Attempt unit)
    : M S unit :=
  try_catch
    (call MongooseDisconnect mongoose_disconnect ;;
     console_log "MongoDB Disconnected")
    (fun error =>
       console_error
         ("MongoDB disconnect error: " ++ message_or error "Unknown error")).

(** [connectDB]: a new [DatabaseConnection], then its [connect()]. *)
Definition connectDB {S : Type} (env : Env)
    (mongoose_connect : Attempt string) : M S unit :=
  connect (new env) mongoose_connect.

End DatabaseConnection.

(** ** loaders/express.ts, [start] *)

Module Startup.
Import Js Proc.

(** [ExpressServer.start()] on the shared [redisConnection]: [port] is
    [this.port], [trace] the stack of an [Error] that [start] builds,
    [status] the Redis client's status when its [connect()] is reached, and
    the three attempts are the ways [mongoose.connect], the Redis client's
    [connect] and [app.listen] end if they are called.  What the server
    emits after [start] returned it (the listening callback, an "error"
    event) is outside the call. *)
Definition start (env : Env) (port : Z) (trace status : string)
    (mongoose_connect : Attempt string) (client_connect : Attempt unit)
    (listen : Attempt unit) : M RedisConnection.t unit :=
  try_catch
    (console_log "🔧 Starting server initialization..." ;;
     let requiredEnvVars := ["MONGODB_URI"; "JWT_SECRET"] in
     let missingVars :=
       filter (fun v => negb (env_truthy env v)) requiredEnvVars in
     (if (0 <? length missingVars)%nat then
        throw
          (ThrownError
             ("Missing required environment variables: "
              ++ String.concat ", " missingVars)
             (Some trace))
      else ret tt) ;;
     console_log "✅ Environment variables validated" ;;
     console_log "📦 Connecting to MongoDB..." ;;
     try_catch
       (DatabaseConnection.connectDB env mongoose_connect ;;
        console_log "✅ MongoDB connected successfully")
       (fun dbError =>
          let dbErrorMsg := message_or dbError "Unknown database error" in
          console_log ("❌ MongoDB connection failed: " ++ dbErrorMsg) ;;
          throw
            (ThrownError ("MongoDB connection failed: " ++ dbErrorMsg)
               (Some trace))) ;;
     console_log "🔌 Connecting to Redis..." ;;
     try_catch
       (RedisConnection.connect status client_connect ;;
        console_log "✅ Redis connected successfully")
       (fun redisError =>
          let redisErrorMsg := message_or redisError "Unknown Redis error" in
          console_log ("❌ Redis connection failed: " ++ redisErrorMsg) ;;
          throw
            (ThrownError ("Redis connection failed: " ++ redisErrorMsg)
               (Some trace))) ;;
     console_log
       ("🌐 Starting HTTP server on port " ++ string_of_Z port ++ "...") ;;
     call (Listen port "0.0.0.0") listen)
    (fun error =>
       console_log
         ("❌ Failed to start server: " ++ message_or error "Unknown error") ;;
       console_log ("Stack trace: " ++ stack_or_empty error) ;;
       process_exit 1).

End Startup.

(** The variables of [process.env] that [start] requires, when they are
    set to the given values. *)
Definition env_of (mongodb_uri jwt_secret : option string) : Proc.Env :=
  fun v =>
    if v =? "MONGODB_URI" then mongodb_uri
    else if v =? "JWT_SECRET" then jwt_secret
    else None.

(** The text that [join] gives a sub-error's message: the string itself,
    nothing when the sub-error has no message. *)
Definition message_segment (m : option string) : Value :=
  match m with
  | Some s => Str s
  | None => Undefined
  end.

(** A field of the body that a middleware call sent, if it sent one. *)
Definition response_field (k : string) (e : Effect) : option Value :=
  match outcome e with
  | Responded res => lookup k (body res)
  | _ => None
  end.

(** ** Lemmas on the JavaScript primitives *)

Lemma append_empty_r (s : string) : s ++ "" = s.
Proof.
  induction s as [|c s IH]; simpl; [reflexivity | now rewrite IH].
Qed.

Lemma contains_suffix (before p : string) : contains p (before ++ p).
Proof.
  exists before, "". now rewrite append_empty_r.
Qed.

Lemma replace_api_prefix_strips (rest : string) :
  replace_api_prefix ("/api" ++ rest) = rest.
Proof. reflexivity. Qed.

Lemma is_duplicate_key_iff (err : JsError) :
  is_duplicate_key err = true <-> code err = Number 11000.
Proof.
  unfold is_duplicate_key. split.
  - destruct (code err) as [| |b|n|s|props|]; simpl;
      try (rewrite andb_false_r; discriminate); try discriminate.
    intros H. apply andb_true_iff in H as [_ H].
    apply Z.eqb_eq in H. now subst.
  - intros ->. reflexivity.
Qed.

Lemma is_duplicate_key_false (err : JsError) :
  code err <> Number 11000 -> is_duplicate_key err = false.
Proof.
  intros H. destruct (is_duplicate_key err) eqn:E; [|reflexivity].
  apply is_duplicate_key_iff in E. contradiction.
Qed.

Lemma Object_keys_or_total (v : Value) :
  exists keys, Object_keys (or v (Object [])) = Normal keys.
Proof.
  unfold or. destruct v as [| |b|n|s|props|]; simpl; try (eexists; reflexivity).
  - destruct b; simpl; eexists; reflexivity.
  - destruct (n =? 0)%Z; simpl; eexists; reflexivity.
  - destruct (s =? ""); simpl; eexists; reflexivity.
Qed.

Lemma Object_values_total (v : Value) :
  nullish v = false -> exists values, Object_values v = Normal values.
Proof.
  destruct v; simpl; intros H; try discriminate; eexists; reflexivity.
Qed.

(** Joining the [message] of sub-errors that all carry a string message
    concatenates those strings. *)
Lemma join_messages (values : list Value) (ms : list string) :
  Forall2 (fun item m => optional_get item "message" = Str m) values ms ->
  join "," (map (fun item => optional_get item "message") values)
  = String.concat "," ms.
Proof.
  intros H. unfold join. f_equal.
  induction H as [|item m values ms Hm _ IH]; simpl.
  - reflexivity.
  - rewrite Hm, IH. reflexivity.
Qed.

(** ** Lemmas on the handler's branches *)

Lemma handler_taxonomy (env : ProcessEnv) (now : string) (err : JsError)
    (req : Request) :
  instanceof_AppError err = true ->
  outcome (errorHandlerMiddleware env now err req)
  = Responded
      {| status := or (statusCode err) (Number 500);
         body :=
           [ ("success", Bool false);
             ("error", Bool true);
             ("message",
              Str (or_string (message err)
                     "Something went wrong, try again later"));
             ("originalError", or (originalError err) (Str "Error"));
             ("statusCode", or (statusCode err) (Number 500));
             ("timestamp", Str now);
             ("path", Str (replace_api_prefix (originalUrl req))) ] |}.
Proof.
  intros H. unfold errorHandlerMiddleware. simpl. rewrite H. reflexivity.
Qed.

Lemma validation_step_skipped (err : JsError) (d : DefaultError.t) :
  name err <> "ValidationError" -> validation_step err d = Normal d.
Proof.
  intros H. unfold validation_step.
  destruct (String.eqb_spec (name err) "ValidationError");
    [contradiction | reflexivity].
Qed.

Lemma validation_step_taken (err : JsError) (d : DefaultError.t)
    (values : list Value) :
  name err = "ValidationError" ->
  Object_values (errors err) = Normal values ->
  validation_step err d
  = Normal
      {| DefaultError.statusCode := Number 500;
         DefaultError.msg :=
           join "," (map (fun item => optional_get item "message") values);
         DefaultError.originalError := DefaultError.originalError d |}.
Proof.
  intros Hn Hv. unfold validation_step. rewrite Hn, Hv. reflexivity.
Qed.

Lemma validation_step_completes (err : JsError) (d : DefaultError.t) :
  errors_enumerable err -> exists d1, validation_step err d = Normal d1.
Proof.
  intros He.
  destruct (String.eqb_spec (name err) "ValidationError") as [Hn|Hn].
  - destruct (Object_values_total (errors err) (He Hn)) as [values Hv].
    eexists. apply (validation_step_taken err d values Hn Hv).
  - exists d. apply validation_step_skipped, Hn.
Qed.

Lemma cast_step_skipped (err : JsError) (d : DefaultError.t) :
  name err <> "CastError" -> cast_step err d = d.
Proof.
  intros H. unfold cast_step.
  destruct (String.eqb_spec (name err) "CastError");
    [contradiction | reflexivity].
Qed.

Lemma duplicate_step_skipped (err : JsError) (d : DefaultError.t) :
  code err <> Number 11000 -> duplicate_step err d = Normal d.
Proof.
  intros H. unfold duplicate_step.
  rewrite (is_duplicate_key_false err H). reflexivity.
Qed.

Lemma duplicate_step_taken (err : JsError) (d : DefaultError.t)
    (keys : list string) :
  code err = Number 11000 ->
  Object_keys (or (keyValue err) (Object [])) = Normal keys ->
  duplicate_step err d
  = Normal
      {| DefaultError.statusCode := Number 400;
         DefaultError.msg := array_to_string keys ++ " field has to be unique";
         DefaultError.originalError := DefaultError.originalError d |}.
Proof.
  intros Hc Hk. unfold duplicate_step.
  rewrite (proj2 (is_duplicate_key_iff err) Hc), Hk. reflexivity.
Qed.

(** The handler's promise rejects exactly when the validation branch is
    selected on a failure whose [errors] cannot be enumerated. *)
Lemma handler_responds (env : ProcessEnv) (now : string) (err : JsError)
    (req : Request) :
  instanceof_AppError err = true \/ errors_enumerable err ->
  exists res, outcome (errorHandlerMiddleware env now err req) = Responded res.
Proof.
  intros [Ha|He].
  - eexists. apply handler_taxonomy, Ha.
  - destruct (instanceof_AppError err) eqn:Ha.
    + eexists. apply handler_taxonomy, Ha.
    + unfold errorHandlerMiddleware. simpl. rewrite Ha.
      unfold render_unclassified.
      destruct (validation_step_completes err
        {| DefaultError.statusCode := or (statusCode err) (Number 500);
           DefaultError.msg :=
             or_string (message err) "Something went wrong, try again later";
           DefaultError.originalError :=
             or (originalError err) (Str "Error") |} He) as [d1 ->].
      simpl. unfold duplicate_step.
      destruct (is_duplicate_key err).
      * destruct (Object_keys_or_total (keyValue err)) as [keys ->].
        simpl. eexists. reflexivity.
      * simpl. eexists. reflexivity.
Qed.

Lemma handler_rejects (env : ProcessEnv) (now : string) (err : JsError)
    (req : Request) :
  instanceof_AppError err = false ->
  name err = "ValidationError" ->
  nullish (errors err) = true ->
  outcome (errorHandlerMiddleware env now err req)
  = Rejected TypeError_not_object.
Proof.
  intros Ha Hn He. unfold errorHandlerMiddleware. simpl. rewrite Ha.
  unfold render_unclassified, validation_step. rewrite Hn. simpl.
  destruct (errors err); try discriminate; reflexivity.
Qed.

(** Whatever the earlier branches did, conflict code 11000 decides the
    response of a failure outside the taxonomy that got through them. *)
Lemma duplicate_key_decides (env : ProcessEnv) (now : string) (err : JsError)
    (req : Request) (keys : list string) :
  instanceof_AppError err = false ->
  errors_enumerable err ->
  code err = Number 11000 ->
  Object_keys (or (keyValue err) (Object [])) = Normal keys ->
  outcome (errorHandlerMiddleware env now err req)
  = Responded
      (unclassified_response env now err req
         {| DefaultError.statusCode := Number 400;
            DefaultError.msg :=
              array_to_string keys ++ " field has to be unique";
            DefaultError.originalError :=
              or (originalError err) (Str "Error") |}).
Proof.
  intros Ha He Hc Hk. unfold errorHandlerMiddleware. simpl. rewrite Ha.
  unfold render_unclassified.
  destruct (String.eqb_spec (name err) "ValidationError") as [Hn|Hn].
  - destruct (Object_values_total (errors err) (He Hn)) as [values Hv].
    rewrite (validation_step_taken err _ values Hn Hv). simpl.
    rewrite cast_step_skipped by (rewrite Hn; discriminate).
    rewrite (duplicate_step_taken err _ keys Hc Hk). reflexivity.
  - rewrite (validation_step_skipped err _ Hn). simpl.
    unfold cast_step. destruct (name err =? "CastError");
      rewrite (duplicate_step_taken err _ keys Hc Hk); reflexivity.
Qed.

(** A failure outside the taxonomy that no branch recognises is answered
    from the initial [defaultError]. *)
Lemma unrecognised_keeps_default (env : ProcessEnv) (now : string)
    (err : JsError) (req : Request) :
  instanceof_AppError err = false ->
  name err <> "ValidationError" ->
  name err <> "CastError" ->
  code err <> Number 11000 ->
  outcome (errorHandlerMiddleware env now err req)
  = Responded
      (unclassified_response env now err req
         {| DefaultError.statusCode := or (statusCode err) (Number 500);
            DefaultError.msg :=
              or_string (message err) "Something went wrong, try again later";
            DefaultError.originalError :=
              or (originalError err) (Str "Error") |}).
Proof.
  intros Ha Hv Hc Hd. unfold errorHandlerMiddleware. simpl. rewrite Ha.
  unfold render_unclassified.
  rewrite (validation_step_skipped err _ Hv). simpl.
  rewrite (cast_step_skipped err _ Hc).
  rewrite (duplicate_step_skipped err _ Hd). reflexivity.
Qed.

(** Every response to a failure outside the taxonomy has the five fixed
    fields, then [stack] in development mode. *)
Lemma unclassified_shape (env : ProcessEnv) (now : string) (err : JsError)
    (req : Request) (res : HttpResponse) :
  instanceof_AppError err = false ->
  outcome (errorHandlerMiddleware env now err req) = Responded res ->
  exists d, res = unclassified_response env now err req d.
Proof.
  intros Ha. unfold errorHandlerMiddleware. simpl. rewrite Ha.
  unfold render_unclassified.
  destruct (validation_step err _) as [d1|e]; simpl; [|discriminate].
  destruct (duplicate_step err _) as [d3|e]; simpl; [|discriminate].
  intros H. injection H as <-. exists d3. reflexivity.
Qed.

Lemma is_development_iff (env : ProcessEnv) :
  is_development env = true <-> NODE_ENV env = Some "development".
Proof.
  unfold is_development. destruct (NODE_ENV env) as [mode|].
  - split.
    + intros H. apply String.eqb_eq in H. now subst.
    + intros H. injection H as ->. reflexivity.
  - split; discriminate.
Qed.

Lemma is_development_false (env : ProcessEnv) :
  NODE_ENV env <> Some "development" -> is_development env = false.
Proof.
  intros H. destruct (is_development env) eqn:E; [|reflexivity].
  apply is_development_iff in E. contradiction.
Qed.

Lemma unclassified_response_fields (env : ProcessEnv) (now : string)
    (err : JsError) (req : Request) (d : DefaultError.t) :
  let res := unclassified_response env now err req d in
  status res = DefaultError.statusCode d
  /\ lookup "success" (body res) = Some (Bool false)
  /\ lookup "message" (body res) = Some (Str (DefaultError.msg d))
  /\ lookup "statusCode" (body res) = Some (DefaultError.statusCode d)
  /\ lookup "timestamp" (body res) = Some (Str now)
  /\ lookup "path" (body res) = Some (Str (url req))
  /\ lookup "stackTrace" (body res) = None
  /\ lookup "stack" (body res)
     = (if is_development env then Some (stack_value err) else None).
Proof.
  unfold unclassified_response. simpl.
  repeat split; destruct (is_development env); reflexivity.
Qed.

(** ** The taxonomy *)

(** C2: each of the nine kinds, built with a custom message only, has the
    status of the specification's table (500, 400, 404, 401, 403, 409, 429,
    503, 504), and that status is the same whatever the message is. *)
Theorem status_fixed_per_kind (k : Kind) (trace msg : string) :
  statusCode (construct k trace msg) = Number (spec_default_status k)
  /\ forall trace' msg',
       statusCode (construct k trace' msg') = statusCode (construct k trace msg).
Proof.
  split; [|intros trace' msg']; destruct k; reflexivity.
Qed.

(** C3, what the code does at [QueueTimeout]: [new QueueTimeoutError()]
    carries the message "504 Gateway Timeout", which is not the table's
    "Gateway Timeout". *)
Lemma queue_timeout_default_differs :
  construct_default QueueTimeout "" = Some (QueueTimeoutError_new "" None)
  /\ message (QueueTimeoutError_new "" None) = "504 Gateway Timeout"
  /\ message (QueueTimeoutError_new "" None)
     <> spec_default_message QueueTimeout.
Proof.
  repeat split. discriminate.
Qed.

(** C3, as amended: built with no argument, the seven subclasses from
    [BadRequest] to [ServiceUnavailable] carry the message of the
    specification's table and [QueueTimeout] carries "504 Gateway Timeout";
    [Generic] has no default message of its own, and the table's
    "Something went wrong, try again later" is the message that the error
    handler sends for a generic failure whose message is empty. *)
Theorem default_messages (k : Kind) (trace : string) :
  match k with
  | Generic =>
      forall env now status cause req,
      exists res,
        outcome
          (errorHandlerMiddleware env now (AppError_new trace "" status cause)
             req)
        = Responded res
        /\ lookup "message" (body res)
           = Some (Str "Something went wrong, try again later")
  | QueueTimeout =>
      option_map message (construct_default k trace)
      = Some "504 Gateway Timeout"
  | _ =>
      option_map message (construct_default k trace)
      = Some (spec_default_message k)
  end.
Proof.
  destruct k; try reflexivity.
  intros env now status cause req. eexists. split.
  - apply handler_taxonomy. reflexivity.
  - reflexivity.
Qed.

(** C9: every failure built by one of the nine classes, with any
    arguments, and the failure that [notFound] raises, has [isOperational]
    equal to [true]. *)
Theorem isOperational_always_true (e : JsError) :
  Constructed e \/ (exists trace req, raised (notFound trace req) = Some e) ->
  isOperational e = Bool true.
Proof.
  intros [H | (trace & req & H)].
  - destruct H; reflexivity.
  - unfold raised in H. simpl in H. injection H as <-. reflexivity.
Qed.

Lemma isOperational_always_true_witness :
  Constructed (ConflictError_new "" (Some "email taken") (Some Null))
  /\ isOperational (ConflictError_new "" (Some "email taken") (Some Null))
     = Bool true.
Proof.
  split.
  - constructor.
  - apply (isOperational_always_true
             (ConflictError_new "" (Some "email taken") (Some Null))).
    left. constructor.
Defined.

(** ** The error handler on failures of the taxonomy *)

(** C1, what the code does on an empty message: [new BadRequestError("")]
    is an instance of [AppError] whose message is the empty string; the
    response carries the fallback text, not that message. *)
Lemma empty_message_not_verbatim :
  let err := BadRequestError_new "Error at createUser" (Some "") None in
  let req := {| url := "/api/users"; originalUrl := "/api/users" |} in
  instanceof_AppError err = true
  /\ exists res,
       outcome (errorHandlerMiddleware production "2026-01-01T00:00:00.000Z"
                  err req)
       = Responded res
       /\ lookup "message" (body res)
          = Some (Str "Something went wrong, try again later")
       /\ lookup "message" (body res) <> Some (Str (message err)).
Proof.
  simpl. split; [reflexivity|].
  eexists. split; [reflexivity|]. split; [reflexivity|discriminate].
Qed.

(** C1, as amended: for every instance of [AppError] the handler answers
    at once with the failure's [statusCode] (500 when that is 0 or another
    falsy value) and a body of exactly the fields [success: false],
    [error: true], [message] (the failure's message, or "Something went
    wrong, try again later" when it is empty), [originalError] (the wrapped
    cause, or "Error" when there is none), [statusCode], [timestamp] and
    [path] (the original URL without a leading "/api"); the response does
    not depend on the properties that the structural branches read. *)
Theorem taxonomy_failure_rendered (env : ProcessEnv) (now : string)
    (err : JsError) (req : Request) :
  instanceof_AppError err = true ->
  (exists res,
     outcome (errorHandlerMiddleware env now err req) = Responded res
     /\ status res
        = (if truthy (statusCode err) then statusCode err else Number 500)
     /\ body res
        = [ ("success", Bool false);
            ("error", Bool true);
            ("message",
             Str (if message err =? "" then
                    "Something went wrong, try again later"
                  else message err));
            ("originalError",
             if truthy (originalError err) then originalError err
             else Str "Error");
            ("statusCode",
             if truthy (statusCode err) then statusCode err else Number 500);
            ("timestamp", Str now);
            ("path", Str (replace_api_prefix (originalUrl req))) ])
  /\ (forall rest, originalUrl req = "/api" ++ rest ->
      replace_api_prefix (originalUrl req) = rest)
  /\ (forall name_ errors_ path_ code_ keyValue_,
      outcome
        (errorHandlerMiddleware env now
           (with_shape err name_ errors_ path_ code_ keyValue_) req)
      = outcome (errorHandlerMiddleware env now err req)).
Proof.
  intros Ha. split; [|split].
  - eexists. split; [apply handler_taxonomy, Ha|]. split; reflexivity.
  - intros rest ->. apply replace_api_prefix_strips.
  - intros name_ errors_ path_ code_ keyValue_.
    rewrite !handler_taxonomy; [reflexivity | exact Ha | exact Ha].
Qed.

Lemma taxonomy_failure_rendered_witness :
  let err :=
    NotFoundError_new "Error at getWidget" (Some "Resource not found") None in
  let req :=
    {| url := "/api/widgets/999"; originalUrl := "/api/widgets/999" |} in
  instanceof_AppError err = true
  /\ exists res,
       outcome (errorHandlerMiddleware production "2026-01-01T00:00:00.000Z"
                  err req)
       = Responded res
       /\ status res = Number 404
       /\ lookup "message" (body res) = Some (Str "Resource not found")
       /\ lookup "path" (body res) = Some (Str "/widgets/999").
Proof.
  intros err req. split; [reflexivity|].
  destruct (taxonomy_failure_rendered production "2026-01-01T00:00:00.000Z"
              err req eq_refl) as [(res & Hres & Hstatus & Hbody) _].
  exists res. split; [exact Hres|]. rewrite Hstatus, Hbody.
  repeat split.
Defined.

(** C4: for every request that no route answered, [notFound] writes
    nothing and passes to [next] a [NotFoundError] of status 404 whose
    message contains the request's URL; the pipeline then answers with
    status 404 and a message that contains that URL. *)
Theorem unmatched_route_is_404 (env : ProcessEnv) (now trace : string)
    (req : Request) :
  (exists err,
     notFound trace req = {| console := []; outcome := NextWith err |}
     /\ proto err = NotFoundError_prototype
     /\ statusCode err = Number 404
     /\ contains (url req) (message err))
  /\ (exists res,
        outcome (unmatchedRoute env now trace req) = Responded res
        /\ status res = Number 404
        /\ lookup "statusCode" (body res) = Some (Number 404)
        /\ exists m,
             lookup "message" (body res) = Some (Str m)
             /\ contains (url req) m).
Proof.
  split.
  - eexists. split; [reflexivity|]. repeat split.
    apply (contains_suffix "Route not found : ").
  - eexists. split; [reflexivity|]. repeat split.
    eexists. split; [reflexivity|].
    apply (contains_suffix "Route not found : ").
Qed.

(** ** The error handler on failures outside the taxonomy *)

(** C5, what the code does when the validation branch comes first: a
    failure with conflict code 11000 and the offending field [email], that
    is also named "ValidationError" and has no [errors] property, gets no
    400 response; [Object.values] throws and the handler's promise
    rejects. *)
Lemma duplicate_key_behind_validation_name :
  let err :=
    foreign_error "ValidationError" "E11000 duplicate key error"
      (Some "ValidationError: E11000 duplicate key error")
      Undefined Undefined Undefined (Number 11000)
      (Object [("email", Str "ann@example.org")]) in
  let req := {| url := "/users"; originalUrl := "/api/users" |} in
  instanceof_AppError err = false
  /\ outcome (errorHandlerMiddleware production "2026-01-01T00:00:00.000Z"
                err req)
     = Rejected TypeError_not_object
  /\ forall res,
       outcome (errorHandlerMiddleware production "2026-01-01T00:00:00.000Z"
                  err req)
       <> Responded res.
Proof.
  simpl. repeat split. discriminate.
Qed.

(** C5, as amended: for every failure outside the taxonomy that carries
    conflict code 11000 and a [keyValue] object, and that can go through
    the validation branch (it is not named "ValidationError", or its
    [errors] can be enumerated), the response has status 400 and the
    message made of the comma-separated field names followed by
    " field has to be unique". *)
Theorem duplicate_key_is_400 (env : ProcessEnv) (now : string)
    (err : JsError) (req : Request) (kv : list (string * Value)) :
  instanceof_AppError err = false ->
  code err = Number 11000 ->
  keyValue err = Object kv ->
  errors_enumerable err ->
  exists res,
    outcome (errorHandlerMiddleware env now err req) = Responded res
    /\ status res = Number 400
    /\ lookup "statusCode" (body res) = Some (Number 400)
    /\ lookup "message" (body res)
       = Some (Str (String.concat "," (map fst kv)
                    ++ " field has to be unique")).
Proof.
  intros Ha Hc Hk He.
  assert (Hkeys : Object_keys (or (keyValue err) (Object []))
                  = Normal (map fst kv)) by (rewrite Hk; reflexivity).
  eexists. split.
  - apply (duplicate_key_decides env now err req _ Ha He Hc Hkeys).
  - repeat split; apply unclassified_response_fields.
Qed.

Lemma duplicate_key_is_400_witness :
  let err :=
    foreign_error "MongoServerError" "E11000 duplicate key error"
      (Some "MongoServerError: E11000 duplicate key error")
      Undefined Undefined Undefined (Number 11000)
      (Object [("email", Str "ann@example.org")]) in
  let req := {| url := "/users"; originalUrl := "/api/users" |} in
  (instanceof_AppError err = false
   /\ code err = Number 11000
   /\ keyValue err = Object [("email", Str "ann@example.org")]
   /\ errors_enumerable err)
  /\ exists res,
       outcome (errorHandlerMiddleware production "2026-01-01T00:00:00.000Z"
                  err req)
       = Responded res
       /\ status res = Number 400
       /\ lookup "statusCode" (body res) = Some (Number 400)
       /\ lookup "message" (body res)
          = Some (Str "email field has to be unique").
Proof.
  intros err req.
  assert (He : errors_enumerable err) by (intros H; discriminate H).
  split; [repeat split; exact He|].
  apply (duplicate_key_is_400 production "2026-01-01T00:00:00.000Z" err req
           [("email", Str "ann@example.org")] eq_refl eq_refl eq_refl He).
Defined.

(** C6, what the code does when the conflict code is there too: a failure
    named "ValidationError" with one sub-error and with conflict code 11000
    is answered with status 400 and the uniqueness message, not with status
    500 and the sub-error's message. *)
Lemma validation_shape_with_conflict_code :
  let err :=
    foreign_error "ValidationError" "User validation failed"
      (Some "ValidationError: User validation failed")
      Undefined
      (Object [("email", Object [("message", Str "Email is required")])])
      Undefined (Number 11000) Undefined in
  let req := {| url := "/users"; originalUrl := "/api/users" |} in
  instanceof_AppError err = false
  /\ exists res,
       outcome (errorHandlerMiddleware production "2026-01-01T00:00:00.000Z"
                  err req)
       = Responded res
       /\ status res = Number 400
       /\ status res <> Number 500
       /\ lookup "message" (body res) = Some (Str " field has to be unique")
       /\ lookup "message" (body res) <> Some (Str "Email is required").
Proof.
  simpl. split; [reflexivity|].
  eexists. split; [reflexivity|]. simpl.
  repeat split; discriminate.
Qed.

(** C6, as amended: for every failure outside the taxonomy that is named
    "ValidationError", whose [errors] is a set of sub-errors each with a
    string message, and that does not carry conflict code 11000, the
    response has status 500 and, as its message, the sub-errors' messages
    joined with commas. *)
Theorem validation_errors_joined_500 (env : ProcessEnv) (now : string)
    (err : JsError) (req : Request) (props : list (string * Value))
    (ms : list string) :
  instanceof_AppError err = false ->
  name err = "ValidationError" ->
  errors err = Object props ->
  Forall2 (fun item m => optional_get item "message" = Str m)
    (map snd props) ms ->
  code err <> Number 11000 ->
  exists res,
    outcome (errorHandlerMiddleware env now err req) = Responded res
    /\ status res = Number 500
    /\ lookup "statusCode" (body res) = Some (Number 500)
    /\ lookup "message" (body res) = Some (Str (String.concat "," ms)).
Proof.
  intros Ha Hn He Hms Hc.
  exists (unclassified_response env now err req
            {| DefaultError.statusCode := Number 500;
               DefaultError.msg := String.concat "," ms;
               DefaultError.originalError :=
                 or (originalError err) (Str "Error") |}).
  split.
  - unfold errorHandlerMiddleware. simpl. rewrite Ha.
    unfold render_unclassified.
    rewrite (validation_step_taken err _ (map snd props) Hn)
      by (rewrite He; reflexivity).
    simpl. rewrite cast_step_skipped by (rewrite Hn; discriminate).
    rewrite (duplicate_step_skipped err _ Hc).
    rewrite (join_messages _ _ Hms). reflexivity.
  - repeat split; apply unclassified_response_fields.
Qed.

Lemma validation_errors_joined_500_witness :
  let props :=
    [ ("email", Object [("message", Str "Email is required")]);
      ("age", Object [("message", Str "Age must be positive");
                      ("kind", Str "min")]) ] in
  let err :=
    foreign_error "ValidationError" "User validation failed"
      (Some "ValidationError: User validation failed")
      (Number 400) (Object props) Undefined Undefined Undefined in
  let req := {| url := "/users"; originalUrl := "/api/users" |} in
  (instanceof_AppError err = false
   /\ name err = "ValidationError"
   /\ errors err = Object props
   /\ code err <> Number 11000)
  /\ exists res,
       outcome (errorHandlerMiddleware production "2026-01-01T00:00:00.000Z"
                  err req)
       = Responded res
       /\ status res = Number 500
       /\ lookup "statusCode" (body res) = Some (Number 500)
       /\ lookup "message" (body res)
          = Some (Str "Email is required,Age must be positive").
Proof.
  intros props err req.
  split; [repeat split; discriminate|].
  apply (validation_errors_joined_500 production "2026-01-01T00:00:00.000Z"
           err req props ["Email is required"; "Age must be positive"]
           eq_refl eq_refl eq_refl).
  - repeat constructor.
  - discriminate.
Defined.

(** C7, what the code does in development mode: the response to a plain
    runtime error has a field named [stack]; no field is named
    [stackTrace]. *)
Lemma development_body_has_no_stackTrace :
  let err :=
    foreign_error "Error" "disk full" (Some "Error: disk full at saveFile")
      Undefined Undefined Undefined Undefined Undefined in
  let req := {| url := "/files"; originalUrl := "/api/files" |} in
  instanceof_AppError err = false
  /\ exists res,
       outcome (errorHandlerMiddleware development "2026-01-01T00:00:00.000Z"
                  err req)
       = Responded res
       /\ lookup "stackTrace" (body res) = None
       /\ map fst (body res)
          = ["success"; "message"; "statusCode"; "timestamp"; "path"; "stack"].
Proof.
  simpl. split; [reflexivity|].
  eexists. split; [reflexivity|]. split; reflexivity.
Qed.

(** C7, as amended: for every failure outside the taxonomy that the
    handler answers, the body has, when [NODE_ENV] is "development", a
    field [stack] holding the failure's own [stack] property (its text when
    it has one), and no field [stack] in any other mode; it never has a
    field [stackTrace]. *)
Theorem stack_only_in_development (env : ProcessEnv) (now : string)
    (err : JsError) (req : Request) :
  instanceof_AppError err = false ->
  errors_enumerable err ->
  exists res,
    outcome (errorHandlerMiddleware env now err req) = Responded res
    /\ (NODE_ENV env = Some "development" ->
        lookup "stack" (body res) = Some (stack_value err)
        /\ forall trace, stack err = Some trace ->
             lookup "stack" (body res) = Some (Str trace))
    /\ (NODE_ENV env <> Some "development" ->
        lookup "stack" (body res) = None)
    /\ lookup "stackTrace" (body res) = None.
Proof.
  intros Ha He.
  destruct (handler_responds env now err req (or_intror He)) as [res Hres].
  exists res. split; [exact Hres|].
  destruct (unclassified_shape env now err req res Ha Hres) as [d ->].
  destruct (unclassified_response_fields env now err req d)
    as (_ & _ & _ & _ & _ & _ & Hnone & Hstack).
  cbv zeta in Hnone, Hstack.
  split; [|split].
  - intros Hdev. rewrite Hstack, (proj2 (is_development_iff env) Hdev).
    split; [reflexivity|].
    intros trace Htrace. unfold stack_value. rewrite Htrace. reflexivity.
  - intros Hdev. rewrite Hstack, (is_development_false env Hdev).
    reflexivity.
  - exact Hnone.
Qed.

Lemma stack_only_in_development_witness :
  let err :=
    foreign_error "Error" "disk full" (Some "Error: disk full at saveFile")
      Undefined Undefined Undefined Undefined Undefined in
  let req := {| url := "/files"; originalUrl := "/api/files" |} in
  (instanceof_AppError err = false /\ errors_enumerable err)
  /\ (exists res,
        outcome (errorHandlerMiddleware development
                   "2026-01-01T00:00:00.000Z" err req)
        = Responded res
        /\ lookup "stack" (body res)
           = Some (Str "Error: disk full at saveFile")
        /\ lookup "stackTrace" (body res) = None)
  /\ (exists res,
        outcome (errorHandlerMiddleware production
                   "2026-01-01T00:00:00.000Z" err req)
        = Responded res
        /\ lookup "stack" (body res) = None
        /\ lookup "stackTrace" (body res) = None).
Proof.
  intros err req.
  assert (He : errors_enumerable err) by (intros H; discriminate H).
  split; [split; [reflexivity | exact He]|].
  split.
  - destruct (stack_only_in_development development
                "2026-01-01T00:00:00.000Z" err req eq_refl He)
      as (res & Hres & Hdev & _ & Hnone).
    exists res. split; [exact Hres|]. split; [|exact Hnone].
    apply (proj2 (Hdev eq_refl)). reflexivity.
  - destruct (stack_only_in_development production
                "2026-01-01T00:00:00.000Z" err req eq_refl He)
      as (res & Hres & _ & Hprod & Hnone).
    exists res. split; [exact Hres|]. split; [|exact Hnone].
    apply Hprod. discriminate.
Defined.

(** C8, what the code does with a status of the failure's own: an error
    that is not an [AppError], matches no structural branch and carries
    [statusCode] 413 (as the body parser's errors do) is answered with
    status 413, not 500. *)
Lemma foreign_statusCode_is_kept :
  let err :=
    foreign_error "PayloadTooLargeError" "request entity too large"
      (Some "PayloadTooLargeError: request entity too large")
      (Number 413) Undefined Undefined Undefined Undefined in
  let req := {| url := "/upload"; originalUrl := "/api/upload" |} in
  instanceof_AppError err = false
  /\ name err <> "ValidationError"
  /\ name err <> "CastError"
  /\ is_duplicate_key err = false
  /\ exists res,
       outcome (errorHandlerMiddleware production "2026-01-01T00:00:00.000Z"
                  err req)
       = Responded res
       /\ status res = Number 413
       /\ status res <> Number 500.
Proof.
  simpl. repeat split; try discriminate.
  eexists. split; [reflexivity|]. simpl. split; [reflexivity|discriminate].
Qed.

(** C8, as amended: for every failure that is not an [AppError], is named
    neither "ValidationError" nor "CastError" and does not carry conflict
    code 11000, the response has the failure's own [statusCode] when that
    is truthy and 500 otherwise, the failure's message (or "Something went
    wrong, try again later" when it is empty), and as [path] the request's
    [url] as it is; the body's fields are [success], [message],
    [statusCode], [timestamp] and [path], then [stack] in development
    mode. *)
Theorem unrecognised_failure_rendered (env : ProcessEnv) (now : string)
    (err : JsError) (req : Request) :
  instanceof_AppError err = false ->
  name err <> "ValidationError" ->
  name err <> "CastError" ->
  code err <> Number 11000 ->
  exists res,
    outcome (errorHandlerMiddleware env now err req) = Responded res
    /\ status res
       = (if truthy (statusCode err) then statusCode err else Number 500)
    /\ (truthy (statusCode err) = false -> status res = Number 500)
    /\ body res
       = ([ ("success", Bool false);
            ("message",
             Str (if message err =? "" then
                    "Something went wrong, try again later"
                  else message err));
            ("statusCode",
             if truthy (statusCode err) then statusCode err else Number 500);
            ("timestamp", Str now);
            ("path", Str (url req)) ]
          ++ (if is_development env then [("stack", stack_value err)]
              else []))%list.
Proof.
  intros Ha Hv Hc Hd. eexists. split.
  - apply (unrecognised_keeps_default env now err req Ha Hv Hc Hd).
  - simpl. unfold or. split; [reflexivity|]. split; [|reflexivity].
    intros ->. reflexivity.
Qed.

Lemma unrecognised_failure_rendered_witness :
  let err :=
    foreign_error "Error" "disk full" (Some "Error: disk full at saveFile")
      Undefined Undefined Undefined Undefined Undefined in
  let req := {| url := "/files"; originalUrl := "/api/files" |} in
  (instanceof_AppError err = false
   /\ name err <> "ValidationError"
   /\ name err <> "CastError"
   /\ code err <> Number 11000)
  /\ exists res,
       outcome (errorHandlerMiddleware production "2026-01-01T00:00:00.000Z"
                  err req)
       = Responded res
       /\ status res = Number 500
       /\ body res
          = [ ("success", Bool false);
              ("message", Str "disk full");
              ("statusCode", Number 500);
              ("timestamp", Str "2026-01-01T00:00:00.000Z");
              ("path", Str "/files") ].
Proof.
  intros err req.
  assert (Hv : name err <> "ValidationError") by discriminate.
  assert (Hc : name err <> "CastError") by discriminate.
  assert (Hd : code err <> Number 11000) by discriminate.
  split; [repeat split; assumption|].
  destruct (unrecognised_failure_rendered production
              "2026-01-01T00:00:00.000Z" err req eq_refl Hv Hc Hd)
    as (res & Hres & Hstatus & _ & Hbody).
  exists res. split; [exact Hres|]. split; [exact Hstatus | exact Hbody].
Defined.

(** C10, what the code does when the validation branch cannot run: a
    failure named "ValidationError" with conflict code 11000 and no
    [errors] property never reaches the uniqueness check; [Object.values]
    throws and no response is sent. *)
Lemma validation_name_without_errors_rejects :
  let err :=
    foreign_error "ValidationError" "username already in use"
      (Some "ValidationError: username already in use")
      Undefined Undefined Undefined (Number 11000)
      (Object [("username", Str "ann")]) in
  let req := {| url := "/signup"; originalUrl := "/api/signup" |} in
  instanceof_AppError err = false
  /\ name err = "ValidationError"
  /\ code err = Number 11000
  /\ outcome (errorHandlerMiddleware development "2026-01-01T00:00:00.000Z"
                err req)
     = Rejected TypeError_not_object.
Proof.
  simpl. repeat split.
Qed.

(** C10, as amended: the uniqueness check runs after the two name checks
    and is not exclusive with them: for every failure outside the taxonomy
    that is named "ValidationError" or "CastError", carries conflict code
    11000 and, when named "ValidationError", has [errors] that can be
    enumerated, the response has status 400 and a message that ends in
    " field has to be unique", in place of the earlier classification; in
    front of it stand the comma-separated keys of [keyValue] when that is
    an object, and nothing when it is missing. *)
Theorem conflict_code_overrides_name_shapes (env : ProcessEnv) (now : string)
    (err : JsError) (req : Request) :
  instanceof_AppError err = false ->
  name err = "ValidationError" \/ name err = "CastError" ->
  code err = Number 11000 ->
  errors_enumerable err ->
  exists res fields,
    outcome (errorHandlerMiddleware env now err req) = Responded res
    /\ status res = Number 400
    /\ lookup "statusCode" (body res) = Some (Number 400)
    /\ lookup "message" (body res)
       = Some (Str (fields ++ " field has to be unique"))
    /\ (forall kv, keyValue err = Object kv ->
        fields = String.concat "," (map fst kv))
    /\ (truthy (keyValue err) = false -> fields = "").
Proof.
  intros Ha _ Hc He.
  destruct (Object_keys_or_total (keyValue err)) as [keys Hkeys].
  eexists. exists (array_to_string keys). split.
  - apply (duplicate_key_decides env now err req keys Ha He Hc Hkeys).
  - split; [apply unclassified_response_fields|].
    split; [apply unclassified_response_fields|].
    split; [apply unclassified_response_fields|]. split.
    + intros kv Hkv. rewrite Hkv in Hkeys. injection Hkeys as <-.
      reflexivity.
    + intros Hk. unfold or in Hkeys. rewrite Hk in Hkeys.
      injection Hkeys as <-. reflexivity.
Qed.

Lemma conflict_code_overrides_name_shapes_witness :
  let err :=
    foreign_error "CastError" "Cast to ObjectId failed"
      (Some "CastError: Cast to ObjectId failed")
      Undefined Undefined (Str "_id") (Number 11000)
      (Object [("email", Str "ann@example.org"); ("tenant", Number 7)]) in
  let req := {| url := "/users/xyz"; originalUrl := "/api/users/xyz" |} in
  (instanceof_AppError err = false
   /\ (name err = "ValidationError" \/ name err = "CastError")
   /\ code err = Number 11000
   /\ errors_enumerable err)
  /\ exists res,
       outcome (errorHandlerMiddleware production
                  "2026-01-01T00:00:00.000Z" err req)
       = Responded res
       /\ status res = Number 400
       /\ lookup "statusCode" (body res) = Some (Number 400)
       /\ lookup "message" (body res)
          = Some (Str "email,tenant field has to be unique").
Proof.
  intros err req.
  assert (He : errors_enumerable err) by (intros H; discriminate H).
  split; [repeat split; [right; reflexivity | exact He]|].
  destruct (conflict_code_overrides_name_shapes production
              "2026-01-01T00:00:00.000Z" err req eq_refl
              (or_intror eq_refl) eq_refl He)
    as (res & fields & Hres & Hst & Hsc & Hm & Hkv & _).
  exists res. split; [exact Hres|]. split; [exact Hst|].
  split; [exact Hsc|].
  rewrite Hm, (Hkv _ eq_refl). reflexivity.
Defined.

(** ** Further properties of the error handler *)

Lemma or_default_truthy (v : Value) (n : Z) :
  n <> 0%Z -> truthy (or v (Number n)) = true.
Proof.
  intros Hn. unfold or. destruct (truthy v) eqn:Hv; [exact Hv|].
  simpl. apply negb_true_iff, Z.eqb_neq, Hn.
Qed.

Lemma validation_step_status (err : JsError) (d d1 : DefaultError.t) :
  validation_step err d = Normal d1 ->
  DefaultError.statusCode d1 = DefaultError.statusCode d
  \/ DefaultError.statusCode d1 = Number 500.
Proof.
  unfold validation_step. destruct (name err =? "ValidationError").
  - destruct (Object_values (errors err)); simpl; [|discriminate].
    intros H. injection H as <-. right. reflexivity.
  - intros H. injection H as <-. left. reflexivity.
Qed.

Lemma cast_step_status (err : JsError) (d : DefaultError.t) :
  DefaultError.statusCode (cast_step err d) = DefaultError.statusCode d
  \/ DefaultError.statusCode (cast_step err d) = Number 400.
Proof.
  unfold cast_step. destruct (name err =? "CastError"); simpl; auto.
Qed.

Lemma duplicate_step_status (err : JsError) (d d3 : DefaultError.t) :
  duplicate_step err d = Normal d3 ->
  DefaultError.statusCode d3 = DefaultError.statusCode d
  \/ DefaultError.statusCode d3 = Number 400.
Proof.
  unfold duplicate_step. destruct (is_duplicate_key err).
  - destruct (Object_keys (or (keyValue err) (Object []))); simpl;
      [|discriminate].
    intros H. injection H as <-. right. reflexivity.
  - intros H. injection H as <-. left. reflexivity.
Qed.

(** The status of a response to a failure outside the taxonomy is the
    initial one, or one of the two that the branches set. *)
Lemma unclassified_status_cases (env : ProcessEnv) (now : string)
    (err : JsError) (req : Request) (res : HttpResponse) :
  instanceof_AppError err = false ->
  outcome (errorHandlerMiddleware env now err req) = Responded res ->
  exists d,
    res = unclassified_response env now err req d
    /\ (DefaultError.statusCode d = or (statusCode err) (Number 500)
        \/ DefaultError.statusCode d = Number 500
        \/ DefaultError.statusCode d = Number 400).
Proof.
  intros Ha. unfold errorHandlerMiddleware. simpl. rewrite Ha.
  unfold render_unclassified.
  destruct (validation_step err _) as [d1|e] eqn:H1; simpl; [|discriminate].
  destruct (duplicate_step err _) as [d3|e] eqn:H3; simpl; [|discriminate].
  intros H. injection H as <-. exists d3. split; [reflexivity|].
  apply validation_step_status in H1. simpl in H1.
  apply duplicate_step_status in H3.
  destruct (cast_step_status err d1) as [H2|H2];
    destruct H1 as [H1|H1]; destruct H3 as [H3|H3];
    rewrite ?H3, ?H2, ?H1; auto.
Qed.

(** X1: a failure outside the taxonomy that is named "CastError", does
    not carry conflict code 11000 and whose [path] is a string or missing,
    as [MongooseCastError] declares it, is answered with status 400 and the
    message "Resource not found. Invalid: " followed by that string, or by
    "undefined" when there is no [path]; the failure's own message and
    [statusCode] are not used. *)
Theorem cast_error_is_400 (env : ProcessEnv) (now : string) (err : JsError)
    (req : Request) :
  instanceof_AppError err = false ->
  name err = "CastError" ->
  code err <> Number 11000 ->
  path err = Undefined \/ (exists field, path err = Str field) ->
  exists res,
    outcome (errorHandlerMiddleware env now err req) = Responded res
    /\ status res = Number 400
    /\ lookup "statusCode" (body res) = Some (Number 400)
    /\ lookup "message" (body res)
       = Some (Str ("Resource not found. Invalid: "
                    ++ match path err with
                       | Str field => field
                       | _ => "undefined"
                       end)).
Proof.
  intros Ha Hn Hc Hp.
  exists (unclassified_response env now err req
            {| DefaultError.statusCode := Number 400;
               DefaultError.msg :=
                 "Resource not found. Invalid: " ++ to_string (path err);
               DefaultError.originalError :=
                 or (originalError err) (Str "Error") |}).
  split.
  - unfold errorHandlerMiddleware. simpl. rewrite Ha.
    unfold render_unclassified.
    rewrite validation_step_skipped by (rewrite Hn; discriminate).
    simpl. unfold cast_step. rewrite Hn. simpl.
    rewrite duplicate_step_skipped by exact Hc. reflexivity.
  - split; [apply unclassified_response_fields|].
    split; [apply unclassified_response_fields|].
    destruct (unclassified_response_fields env now err req
                {| DefaultError.statusCode := Number 400;
                   DefaultError.msg :=
                     "Resource not found. Invalid: " ++ to_string (path err);
                   DefaultError.originalError :=
                     or (originalError err) (Str "Error") |})
      as (_ & _ & Hm & _).
    cbv zeta in Hm. rewrite Hm. simpl.
    destruct Hp as [-> | [field ->]]; reflexivity.
Qed.

Lemma cast_error_is_400_witness :
  let err :=
    foreign_error "CastError" "Cast to ObjectId failed"
      (Some "CastError: Cast to ObjectId failed")
      (Number 422) Undefined (Str "_id") Undefined Undefined in
  let req := {| url := "/users/xyz"; originalUrl := "/api/users/xyz" |} in
  (instanceof_AppError err = false
   /\ name err = "CastError"
   /\ code err <> Number 11000
   /\ (path err = Undefined \/ exists field, path err = Str field))
  /\ exists res,
       outcome (errorHandlerMiddleware production "2026-01-01T00:00:00.000Z"
                  err req)
       = Responded res
       /\ status res = Number 400
       /\ lookup "statusCode" (body res) = Some (Number 400)
       /\ lookup "message" (body res)
          = Some (Str "Resource not found. Invalid: _id").
Proof.
  intros err req.
  assert (Hc : code err <> Number 11000) by discriminate.
  assert (Hp : path err = Undefined \/ exists field, path err = Str field)
    by (right; exists "_id"; reflexivity).
  split; [repeat split; assumption|].
  apply (cast_error_is_400 production "2026-01-01T00:00:00.000Z" err req
           eq_refl eq_refl Hc Hp).
Defined.

(** X2: the handler's promise rejects exactly when the failure is not an
    [AppError], is named "ValidationError" and has [errors] undefined or
    null; the exception is then the [TypeError] of [Object.values].  In
    every other case it sends a response. *)
Theorem handler_rejects_iff (env : ProcessEnv) (now : string) (err : JsError)
    (req : Request) :
  (outcome (errorHandlerMiddleware env now err req)
   = Rejected TypeError_not_object
   <-> instanceof_AppError err = false
       /\ name err = "ValidationError"
       /\ nullish (errors err) = true)
  /\ ((exists res,
         outcome (errorHandlerMiddleware env now err req) = Responded res)
      <-> ~ (instanceof_AppError err = false
             /\ name err = "ValidationError"
             /\ nullish (errors err) = true)).
Proof.
  assert (Hyes : instanceof_AppError err = false
                 /\ name err = "ValidationError"
                 /\ nullish (errors err) = true ->
                 outcome (errorHandlerMiddleware env now err req)
                 = Rejected TypeError_not_object).
  { intros (Ha & Hn & He). apply handler_rejects; assumption. }
  assert (Hno : ~ (instanceof_AppError err = false
                   /\ name err = "ValidationError"
                   /\ nullish (errors err) = true) ->
                exists res,
                  outcome (errorHandlerMiddleware env now err req)
                  = Responded res).
  { intros Hnot. apply handler_responds.
    destruct (instanceof_AppError err) eqn:Ha; [left; reflexivity|].
    right. intros Hn. destruct (nullish (errors err)) eqn:He;
      [|reflexivity].
    exfalso. apply Hnot. repeat split; assumption. }
  assert (Hdec : (instanceof_AppError err = false
                  /\ name err = "ValidationError"
                  /\ nullish (errors err) = true)
                 \/ ~ (instanceof_AppError err = false
                       /\ name err = "ValidationError"
                       /\ nullish (errors err) = true)).
  { destruct (instanceof_AppError err);
      [right; intros (H & _); discriminate|].
    destruct (String.eqb_spec (name err) "ValidationError") as [Hn|Hn];
      [|right; intros (_ & H & _); contradiction].
    destruct (nullish (errors err));
      [left; repeat split; assumption
      |right; intros (_ & _ & H); discriminate]. }
  split; split.
  - intros Hrej. destruct Hdec as [H|H]; [exact H|].
    destruct (Hno H) as [res Hres]. rewrite Hres in Hrej. discriminate.
  - exact Hyes.
  - intros [res Hres] H. rewrite (Hyes H) in Hres. discriminate.
  - exact Hno.
Qed.

Lemma handler_rejects_iff_witness :
  let err :=
    foreign_error "ValidationError" "name is required"
      (Some "ValidationError: name is required")
      Undefined Undefined Undefined Undefined Undefined in
  let req := {| url := "/users"; originalUrl := "/api/users" |} in
  (instanceof_AppError err = false
   /\ name err = "ValidationError"
   /\ nullish (errors err) = true)
  /\ outcome (errorHandlerMiddleware production "2026-01-01T00:00:00.000Z"
                err req)
     = Rejected TypeError_not_object.
Proof.
  intros err req.
  assert (H : instanceof_AppError err = false
              /\ name err = "ValidationError"
              /\ nullish (errors err) = true) by (repeat split).
  split; [exact H|].
  apply (proj2 (proj1 (handler_rejects_iff production
                         "2026-01-01T00:00:00.000Z" err req)) H).
Defined.

(** X3: every response that the handler sends, on either branch, has
    [success: false], a string [message], the [timestamp] of the call and a
    [statusCode] field equal to the status given to [res.status]; that
    status is never a falsy value. *)
Theorem response_invariant (env : ProcessEnv) (now : string) (err : JsError)
    (req : Request) (res : HttpResponse) :
  outcome (errorHandlerMiddleware env now err req) = Responded res ->
  lookup "success" (body res) = Some (Bool false)
  /\ lookup "statusCode" (body res) = Some (status res)
  /\ truthy (status res) = true
  /\ lookup "timestamp" (body res) = Some (Str now)
  /\ exists m, lookup "message" (body res) = Some (Str m).
Proof.
  intros Hres. destruct (instanceof_AppError err) eqn:Ha.
  - rewrite (handler_taxonomy env now err req Ha) in Hres.
    injection Hres as <-. simpl.
    repeat split; [apply or_default_truthy; discriminate|].
    eexists. reflexivity.
  - destruct (unclassified_status_cases env now err req res Ha Hres)
      as (d & -> & Hd).
    destruct (unclassified_response_fields env now err req d)
      as (Hst & Hsu & Hm & Hsc & Hts & _).
    cbv zeta in Hst, Hsu, Hm, Hsc, Hts.
    rewrite Hst. repeat split; try assumption.
    + destruct Hd as [-> | [-> | ->]];
        [apply or_default_truthy; discriminate | reflexivity | reflexivity].
    + eexists. exact Hm.
Qed.

Lemma response_invariant_witness :
  let err :=
    foreign_error "Error" "disk full" (Some "Error: disk full at saveFile")
      (Number 507) Undefined Undefined Undefined Undefined in
  let req := {| url := "/files"; originalUrl := "/api/files" |} in
  let res :=
    unclassified_response development "2026-01-01T00:00:00.000Z" err req
      {| DefaultError.statusCode := Number 507;
         DefaultError.msg := "disk full";
         DefaultError.originalError := Str "Error" |} in
  outcome (errorHandlerMiddleware development "2026-01-01T00:00:00.000Z"
             err req)
  = Responded res
  /\ lookup "statusCode" (body res) = Some (status res)
  /\ truthy (status res) = true.
Proof.
  intros err req res.
  assert (H : outcome (errorHandlerMiddleware development
                         "2026-01-01T00:00:00.000Z" err req)
              = Responded res) by reflexivity.
  split; [exact H|].
  destruct (response_invariant development "2026-01-01T00:00:00.000Z"
              err req res H) as (_ & Hsc & Ht & _).
  split; [exact Hsc | exact Ht].
Defined.

(** X4: the response to an [AppError] does not depend on [NODE_ENV]: it is
    the same in every mode and never has a [stack] field, in development
    mode either. *)
Theorem taxonomy_response_ignores_mode (env env' : ProcessEnv) (now : string)
    (err : JsError) (req : Request) :
  instanceof_AppError err = true ->
  outcome (errorHandlerMiddleware env now err req)
  = outcome (errorHandlerMiddleware env' now err req)
  /\ exists res,
       outcome (errorHandlerMiddleware env now err req) = Responded res
       /\ lookup "stack" (body res) = None.
Proof.
  intros Ha. rewrite !(handler_taxonomy _ now err req Ha).
  split; [reflexivity|]. eexists. split; reflexivity.
Qed.

Lemma taxonomy_response_ignores_mode_witness :
  let err := ForbiddenError_new "Error at deleteUser" None None in
  let req := {| url := "/api/users/7"; originalUrl := "/api/users/7" |} in
  instanceof_AppError err = true
  /\ outcome (errorHandlerMiddleware development "2026-01-01T00:00:00.000Z"
                err req)
     = outcome (errorHandlerMiddleware production "2026-01-01T00:00:00.000Z"
                  err req).
Proof.
  intros err req. split; [reflexivity|].
  apply (proj1 (taxonomy_response_ignores_mode development production
                  "2026-01-01T00:00:00.000Z" err req eq_refl)).
Defined.

(** X5: the response to a failure outside the taxonomy has neither an
    [error] nor an [originalError] field, whatever [originalError] property
    the failure carries. *)
Theorem unclassified_hides_cause (env : ProcessEnv) (now : string)
    (err : JsError) (req : Request) (res : HttpResponse) :
  instanceof_AppError err = false ->
  outcome (errorHandlerMiddleware env now err req) = Responded res ->
  lookup "originalError" (body res) = None
  /\ lookup "error" (body res) = None.
Proof.
  intros Ha Hres.
  destruct (unclassified_shape env now err req res Ha Hres) as [d ->].
  unfold unclassified_response. simpl.
  destruct (is_development env); split; reflexivity.
Qed.

Lemma unclassified_hides_cause_witness :
  let err :=
    {| proto := Error_prototype; name := "MongoNetworkError";
       message := "connection refused";
       stack := Some "MongoNetworkError: connection refused";
       statusCode := Undefined; isOperational := Undefined;
       originalError := Object [("host", Str "db.internal:27017")];
       errors := Undefined; path := Undefined; code := Undefined;
       keyValue := Undefined |} in
  let req := {| url := "/users"; originalUrl := "/api/users" |} in
  let res :=
    unclassified_response development "2026-01-01T00:00:00.000Z" err req
      {| DefaultError.statusCode := Number 500;
         DefaultError.msg := "connection refused";
         DefaultError.originalError :=
           Object [("host", Str "db.internal:27017")] |} in
  instanceof_AppError err = false
  /\ outcome (errorHandlerMiddleware development "2026-01-01T00:00:00.000Z"
                err req)
     = Responded res
  /\ lookup "originalError" (body res) = None
  /\ lookup "error" (body res) = None.
Proof.
  intros err req res.
  assert (H : outcome (errorHandlerMiddleware development
                         "2026-01-01T00:00:00.000Z" err req)
              = Responded res) by reflexivity.
  split; [reflexivity|]. split; [exact H|].
  apply (unclassified_hides_cause development "2026-01-01T00:00:00.000Z"
           err req res eq_refl H).
Defined.

Lemma join_optional_messages (values : list Value) (ms : list (option string)) :
  Forall2 (fun item m => optional_get item "message" = message_segment m)
    values ms ->
  join "," (map (fun item => optional_get item "message") values)
  = String.concat ","
      (map (fun m => match m with Some s => s | None => "" end) ms).
Proof.
  intros H. unfold join. f_equal.
  induction H as [|item m values ms Hm _ IH]; simpl.
  - reflexivity.
  - rewrite Hm, IH. destruct m; reflexivity.
Qed.

(** X6: for a failure outside the taxonomy that is named "ValidationError"
    and does not carry conflict code 11000, the message of the response is
    built from the sub-errors alone: a sub-error without a message
    contributes an empty segment between the commas, and the failure's own
    message is not used, so an [errors] object with no sub-error gives the
    empty message; the status is 500. *)
Theorem validation_message_segments (env : ProcessEnv) (now : string)
    (err : JsError) (req : Request) (props : list (string * Value))
    (ms : list (option string)) :
  instanceof_AppError err = false ->
  name err = "ValidationError" ->
  errors err = Object props ->
  Forall2 (fun item m => optional_get item "message" = message_segment m)
    (map snd props) ms ->
  code err <> Number 11000 ->
  exists res,
    outcome (errorHandlerMiddleware env now err req) = Responded res
    /\ status res = Number 500
    /\ lookup "message" (body res)
       = Some (Str (String.concat ","
                      (map (fun m => match m with Some s => s | None => "" end)
                         ms)))
    /\ (props = [] -> lookup "message" (body res) = Some (Str "")).
Proof.
  intros Ha Hn He Hms Hc.
  exists (unclassified_response env now err req
            {| DefaultError.statusCode := Number 500;
               DefaultError.msg :=
                 String.concat ","
                   (map (fun m => match m with Some s => s | None => "" end)
                      ms);
               DefaultError.originalError :=
                 or (originalError err) (Str "Error") |}).
  split.
  - unfold errorHandlerMiddleware. simpl. rewrite Ha.
    unfold render_unclassified.
    rewrite (validation_step_taken err _ (map snd props) Hn)
      by (rewrite He; reflexivity).
    simpl. rewrite cast_step_skipped by (rewrite Hn; discriminate).
    rewrite (duplicate_step_skipped err _ Hc).
    rewrite (join_optional_messages _ _ Hms). reflexivity.
  - split; [apply unclassified_response_fields|].
    split; [apply unclassified_response_fields|].
    intros ->. inversion Hms; subst.
    apply unclassified_response_fields.
Qed.

Lemma validation_message_segments_witness :
  let props :=
    [ ("email", Object [("message", Str "Email is required")]);
      ("age", Object [("kind", Str "min")]);
      ("name", Null);
      ("role", Object [("message", Str "Role is unknown")]) ] in
  let err :=
    foreign_error "ValidationError" "User validation failed"
      (Some "ValidationError: User validation failed")
      Undefined (Object props) Undefined Undefined Undefined in
  let req := {| url := "/users"; originalUrl := "/api/users" |} in
  (instanceof_AppError err = false
   /\ name err = "ValidationError"
   /\ errors err = Object props
   /\ code err <> Number 11000)
  /\ exists res,
       outcome (errorHandlerMiddleware production "2026-01-01T00:00:00.000Z"
                  err req)
       = Responded res
       /\ status res = Number 500
       /\ lookup "message" (body res)
          = Some (Str "Email is required,,,Role is unknown").
Proof.
  intros props err req.
  assert (Hc : code err <> Number 11000) by discriminate.
  split; [repeat split; exact Hc|].
  destruct (validation_message_segments production "2026-01-01T00:00:00.000Z"
              err req props
              [Some "Email is required"; None; None; Some "Role is unknown"]
              eq_refl eq_refl eq_refl)
    as (res & Hres & Hst & Hm & _).
  - repeat constructor.
  - exact Hc.
  - exists res. repeat split; assumption.
Defined.

(** X7: [replace_api_prefix] removes the four characters "/api" from a URL
    that starts with them, once, and returns every other URL unchanged. *)
Theorem replace_api_prefix_spec (u : string) :
  (prefix "/api" u = true -> "/api" ++ replace_api_prefix u = u)
  /\ (prefix "/api" u = false -> replace_api_prefix u = u).
Proof.
  destruct (prefix "/api" u) eqn:Hp.
  - split; [intros _ | discriminate].
    apply prefix_correct in Hp. simpl in Hp.
    destruct u as [|c0 [|c1 [|c2 [|c3 rest]]]]; simpl in Hp;
      try discriminate.
    injection Hp as -> -> -> -> _. reflexivity.
  - split; [discriminate | intros _].
    destruct u as [|c0 [|c1 [|c2 [|c3 rest]]]]; try reflexivity.
    + destruct c0 as [[] [] [] [] [] [] [] []]; reflexivity.
    + destruct c0 as [[] [] [] [] [] [] [] []]; try reflexivity;
        destruct c1 as [[] [] [] [] [] [] [] []]; reflexivity.
    + destruct c0 as [[] [] [] [] [] [] [] []]; try reflexivity;
        destruct c1 as [[] [] [] [] [] [] [] []]; try reflexivity;
        destruct c2 as [[] [] [] [] [] [] [] []]; reflexivity.
    + destruct c0 as [[] [] [] [] [] [] [] []]; try reflexivity;
        destruct c1 as [[] [] [] [] [] [] [] []]; try reflexivity;
        destruct c2 as [[] [] [] [] [] [] [] []]; try reflexivity;
        destruct c3 as [[] [] [] [] [] [] [] []]; try reflexivity.
      exfalso. apply Bool.not_true_iff_false in Hp. apply Hp.
      apply prefix_correct. simpl. destruct rest; reflexivity.
Qed.

Lemma replace_api_prefix_spec_witness :
  (prefix "/api" "/api/api/users" = true
   /\ replace_api_prefix "/api/api/users" = "/api/users")
  /\ (prefix "/api" "/v1/api/users" = false
      /\ replace_api_prefix "/v1/api/users" = "/v1/api/users").
Proof.
  split.
  - split; [reflexivity|].
    assert (Hinj : forall a b : string, "/api" ++ a = "/api" ++ b -> a = b)
      by (intros a b Hab; injection Hab as Hab; exact Hab).
    apply Hinj.
    exact (proj1 (replace_api_prefix_spec "/api/api/users") eq_refl).
  - split; [reflexivity|].
    apply (proj2 (replace_api_prefix_spec "/v1/api/users") eq_refl).
Defined.

(** X8: a failure outside the taxonomy that carries conflict code 11000
    but no [keyValue] (undefined, null or another falsy value) and that
    gets through the validation branch is answered with status 400 and the
    message " field has to be unique", with no field name in front. *)
Theorem conflict_without_keyValue (env : ProcessEnv) (now : string)
    (err : JsError) (req : Request) :
  instanceof_AppError err = false ->
  code err = Number 11000 ->
  truthy (keyValue err) = false ->
  errors_enumerable err ->
  exists res,
    outcome (errorHandlerMiddleware env now err req) = Responded res
    /\ status res = Number 400
    /\ lookup "message" (body res) = Some (Str " field has to be unique").
Proof.
  intros Ha Hc Hk He.
  assert (Hkeys : Object_keys (or (keyValue err) (Object [])) = Normal [])
    by (unfold or; rewrite Hk; reflexivity).
  eexists. split.
  - apply (duplicate_key_decides env now err req [] Ha He Hc Hkeys).
  - split; apply unclassified_response_fields.
Qed.

Lemma conflict_without_keyValue_witness :
  let err :=
    foreign_error "MongoServerError" "E11000 duplicate key error"
      (Some "MongoServerError: E11000 duplicate key error")
      Undefined Undefined Undefined (Number 11000) Undefined in
  let req := {| url := "/users"; originalUrl := "/api/users" |} in
  (instanceof_AppError err = false
   /\ code err = Number 11000
   /\ truthy (keyValue err) = false
   /\ errors_enumerable err)
  /\ exists res,
       outcome (errorHandlerMiddleware production "2026-01-01T00:00:00.000Z"
                  err req)
       = Responded res
       /\ status res = Number 400
       /\ lookup "message" (body res) = Some (Str " field has to be unique").
Proof.
  intros err req.
  assert (He : errors_enumerable err) by (intros H; discriminate H).
  split; [repeat split; exact He|].
  apply (conflict_without_keyValue production "2026-01-01T00:00:00.000Z"
           err req eq_refl eq_refl eq_refl He).
Defined.

(** ** Further properties of the taxonomy *)

(** X9: every failure built by one of the nine classes, with any
    arguments, is answered on the taxonomy branch ([error: true]) with its
    own status code as status when that is truthy, and with 500 when it is
    falsy, which are 0 and [NaN]; only the base class can be built with
    such a status, a failure of the eight subclasses is always answered
    with its own. *)
Theorem constructed_failure_rendered (env : ProcessEnv) (now : string)
    (e : JsError) (req : Request) :
  Constructed e ->
  exists res,
    outcome (errorHandlerMiddleware env now e req) = Responded res
    /\ lookup "error" (body res) = Some (Bool true)
    /\ status res
       = (if truthy (statusCode e) then statusCode e else Number 500)
    /\ (proto e <> AppError_prototype -> status res = statusCode e)
    /\ lookup "statusCode" (body res) = Some (status res).
Proof.
  intros H.
  assert (Ha : instanceof_AppError e = true) by (destruct H; reflexivity).
  eexists. split; [apply handler_taxonomy, Ha|]. simpl.
  split; [reflexivity|]. split; [reflexivity|]. split; [|reflexivity].
  destruct H as [trace m s o| | | | | | | |]; try reflexivity.
  intros Hp. exfalso. apply Hp. reflexivity.
Qed.

Lemma constructed_failure_rendered_witness :
  let e :=
    AppError_new "Error at charge" "Payment required" (Some NotANumber) None in
  let req := {| url := "/api/pay"; originalUrl := "/api/pay" |} in
  Constructed e
  /\ exists res,
       outcome (errorHandlerMiddleware production "2026-01-01T00:00:00.000Z"
                  e req)
       = Responded res
       /\ lookup "error" (body res) = Some (Bool true)
       /\ status res = Number 500.
Proof.
  intros e req. split; [constructor|].
  destruct (constructed_failure_rendered production
              "2026-01-01T00:00:00.000Z" e req
              (Constructed_AppError _ _ _ _))
    as (res & Hres & Herr & Hst & _).
  exists res. repeat split; assumption.
Defined.

(** X10: a [RateLimitError], a [ServiceUnavailableError] or a
    [QueueTimeoutError] cannot wrap a cause, and one of the other five
    subclasses built without a cause wraps none: the response's
    [originalError] is then the string "Error".  A cause that is an object
    is sent to the client as it is. *)
Theorem rendered_cause (env : ProcessEnv) (now trace : string)
    (m : option string) (req : Request) :
  (forall e,
     In e [ RateLimitError_new trace m;
            ServiceUnavailableError_new trace m;
            QueueTimeoutError_new trace m;
            BadRequestError_new trace m None;
            NotFoundError_new trace m None;
            UnauthorizedError_new trace m None;
            ForbiddenError_new trace m None;
            ConflictError_new trace m None ] ->
     response_field "originalError" (errorHandlerMiddleware env now e req)
     = Some (Str "Error"))
  /\ (forall props e,
        In e [ BadRequestError_new trace m (Some (Object props));
               NotFoundError_new trace m (Some (Object props));
               UnauthorizedError_new trace m (Some (Object props));
               ForbiddenError_new trace m (Some (Object props));
               ConflictError_new trace m (Some (Object props)) ] ->
        response_field "originalError" (errorHandlerMiddleware env now e req)
        = Some (Object props)).
Proof.
  split.
  - intros e He. simpl in He.
    repeat (destruct He as [<-|He]; [reflexivity|]). contradiction.
  - intros props e He. simpl in He.
    repeat (destruct He as [<-|He]; [reflexivity|]). contradiction.
Qed.

Lemma rendered_cause_witness :
  let req := {| url := "/api/login"; originalUrl := "/api/login" |} in
  In (RateLimitError_new "Error at login" None)
    [ RateLimitError_new "Error at login" None;
      ServiceUnavailableError_new "Error at login" None;
      QueueTimeoutError_new "Error at login" None;
      BadRequestError_new "Error at login" None None;
      NotFoundError_new "Error at login" None None;
      UnauthorizedError_new "Error at login" None None;
      ForbiddenError_new "Error at login" None None;
      ConflictError_new "Error at login" None None ]
  /\ response_field "originalError"
       (errorHandlerMiddleware production "2026-01-01T00:00:00.000Z"
          (RateLimitError_new "Error at login" None) req)
     = Some (Str "Error").
Proof.
  intros req.
  assert (H : In (RateLimitError_new "Error at login" None)
                [ RateLimitError_new "Error at login" None;
                  ServiceUnavailableError_new "Error at login" None;
                  QueueTimeoutError_new "Error at login" None;
                  BadRequestError_new "Error at login" None None;
                  NotFoundError_new "Error at login" None None;
                  UnauthorizedError_new "Error at login" None None;
                  ForbiddenError_new "Error at login" None None;
                  ConflictError_new "Error at login" None None ])
    by (left; reflexivity).
  split; [exact H|].
  apply (proj1 (rendered_cause production "2026-01-01T00:00:00.000Z"
                  "Error at login" None req) _ H).
Defined.

(** X11: a failure built by any of the nine classes is an instance of
    [AppError] whose [name] is still "Error" (no class sets it), whose stack
    is the captured one, and which has none of the properties that the
    handler's structural branches read. *)
Theorem constructed_failure_shape (e : JsError) :
  Constructed e ->
  instanceof_AppError e = true
  /\ name e = "Error"
  /\ (exists trace, stack e = Some trace)
  /\ errors e = Undefined
  /\ path e = Undefined
  /\ code e = Undefined
  /\ keyValue e = Undefined.
Proof.
  intros H. destruct H; repeat split; eexists; reflexivity.
Qed.

Lemma constructed_failure_shape_witness :
  let e := NotFoundError_new "Error at getUser" (Some "No such user") None in
  Constructed e /\ instanceof_AppError e = true /\ name e = "Error".
Proof.
  intros e.
  assert (H : Constructed e) by constructor.
  split; [exact H|].
  destruct (constructed_failure_shape e H) as (Ha & Hn & _).
  split; [exact Ha | exact Hn].
Defined.

(** ** [sanitizeInput] *)

Section Sanitize.
Import SanitizeInput.
Local Open Scope list_scope.
Variable xss : string -> string.

Lemma lookup_app_notin (k : string) (l1 l2 : list (string * Value)) :
  ~ In k (map fst l1) -> lookup k (l1 ++ l2) = lookup k l2.
Proof.
  induction l1 as [|[k' v'] l1 IH]; simpl; intros H; [reflexivity|].
  destruct (String.eqb_spec k' k) as [->|Hk].
  - exfalso. apply H. left. reflexivity.
  - apply IH. intros Hin. apply H. right. exact Hin.
Qed.

Lemma assign_app_notin (k : string) (v : Value)
    (l1 l2 : list (string * Value)) :
  ~ In k (map fst l1) -> assign k v (l1 ++ l2) = l1 ++ assign k v l2.
Proof.
  induction l1 as [|[k' v'] l1 IH]; simpl; intros H; [reflexivity|].
  destruct (String.eqb_spec k' k) as [->|Hk].
  - exfalso. apply H. left. reflexivity.
  - rewrite IH; [reflexivity|]. intros Hin. apply H. right. exact Hin.
Qed.

Lemma map_fst_sanitized (l : list (string * Value)) :
  map fst (map (fun kv => (fst kv, sanitize xss (snd kv))) l) = map fst l.
Proof.
  rewrite map_map. reflexivity.
Qed.

(** The loop, started on an object whose first properties are already
    rewritten, rewrites the others. *)
Lemma sanitize_loop (todo done : list (string * Value)) :
  NoDup (map fst (done ++ todo)) ->
  fold_left
    (fun obj k => assign k (sanitize xss (optional_get (Object obj) k)) obj)
    (map fst todo)
    (map (fun kv => (fst kv, sanitize xss (snd kv))) done ++ todo)
  = map (fun kv => (fst kv, sanitize xss (snd kv))) (done ++ todo).
Proof.
  revert done. induction todo as [|[k v] todo IH]; intros done Hnd.
  - simpl. rewrite !app_nil_r. reflexivity.
  - assert (Hk : ~ In k (map fst done)).
    { rewrite map_app in Hnd. simpl in Hnd.
      apply NoDup_remove_2 in Hnd. intros Hin. apply Hnd.
      apply in_or_app. left. exact Hin. }
    simpl. unfold optional_get.
    rewrite lookup_app_notin by (rewrite map_fst_sanitized; exact Hk).
    simpl. rewrite String.eqb_refl.
    rewrite assign_app_notin by (rewrite map_fst_sanitized; exact Hk).
    simpl. rewrite String.eqb_refl.
    replace (map (fun kv => (fst kv, sanitize xss (snd kv))) done
             ++ (k, sanitize xss v) :: todo)
      with (map (fun kv => (fst kv, sanitize xss (snd kv)))
              (done ++ [(k, v)]) ++ todo)
      by (rewrite map_app, <- app_assoc; reflexivity).
    rewrite IH by (rewrite <- app_assoc; exact Hnd).
    rewrite <- app_assoc. reflexivity.
Qed.

Lemma sanitize_properties_map (props : list (string * Value)) :
  NoDup (map fst props) ->
  sanitize_properties xss props
  = map (fun kv => (fst kv, sanitize xss (snd kv))) props.
Proof.
  intros Hnd. apply (sanitize_loop props []). exact Hnd.
Qed.

(** X12: on a part of the request that is an object (the empty object
    too), the loop of [sanitizeInput] completes.  When the request holds
    the object in a data property, as it does [req.body], the object is
    left with the same keys in the same order, each value that is a string
    replaced by its [xss] filtering and every other value as it was.  When
    the part is built anew at every read, as [req.query] is, the next
    reader finds it as it was: nothing is filtered. *)
Theorem sanitize_part_object (props : list (string * Value)) :
  NoDup (map fst props) ->
  sanitize_part xss (Data (Object props))
  = Normal
      (Data (Object (map (fun kv => (fst kv, sanitize xss (snd kv))) props)))
  /\ sanitize_part xss (Accessor (Object props))
     = Normal (Accessor (Object props)).
Proof.
  intros Hnd. unfold sanitize_part. simpl.
  rewrite (sanitize_properties_map props Hnd). split; reflexivity.
Qed.

(** X13: the sanitising is shallow.  A property whose value is an object
    keeps that object as it is, strings inside it included; so do numbers,
    booleans, [null] and [undefined]. *)
Theorem sanitize_is_shallow (props : list (string * Value)) (k : string)
    (v : Value) :
  NoDup (map fst props) ->
  lookup k props = Some v ->
  (forall s, v <> Str s) ->
  lookup k (sanitize_properties xss props) = Some v.
Proof.
  intros Hnd Hk Hv. rewrite (sanitize_properties_map props Hnd). clear Hnd.
  induction props as [|[k' v'] props IH]; simpl in *; [discriminate|].
  destruct (k' =? k).
  - injection Hk as ->. destruct v; try reflexivity.
    exfalso. apply (Hv s). reflexivity.
  - apply IH. exact Hk.
Qed.

(** X14: when the [xss] filter is idempotent, so is the loop: sanitising
    an object that was sanitised changes nothing. *)
Theorem sanitize_properties_idempotent (props : list (string * Value)) :
  (forall s, xss (xss s) = xss s) ->
  NoDup (map fst props) ->
  sanitize_properties xss (sanitize_properties xss props)
  = sanitize_properties xss props.
Proof.
  intros Hxss Hnd.
  rewrite (sanitize_properties_map props Hnd).
  rewrite sanitize_properties_map by (rewrite map_fst_sanitized; exact Hnd).
  rewrite map_map. apply map_ext. intros [k v]. simpl.
  destruct v; simpl; try reflexivity. rewrite Hxss. reflexivity.
Qed.

End Sanitize.

Lemma sanitize_part_object_witness :
  let xss := fun s => if s =? "<script>" then "&lt;script&gt;" else s in
  let part :=
    [ ("q", Str "<script>"); ("page", Number 2);
      ("filter", Object [("name", Str "<script>")]) ] in
  NoDup (map fst part)
  /\ SanitizeInput.sanitize_part xss (SanitizeInput.Data (Object part))
     = Normal
         (SanitizeInput.Data
            (Object
               [ ("q", Str "&lt;script&gt;"); ("page", Number 2);
                 ("filter", Object [("name", Str "<script>")]) ]))
  /\ SanitizeInput.sanitize_part xss (SanitizeInput.Accessor (Object part))
     = Normal (SanitizeInput.Accessor (Object part)).
Proof.
  intros xss part.
  assert (Hnd : NoDup (map fst part)).
  { repeat constructor; simpl; intuition discriminate. }
  split; [exact Hnd|].
  apply (sanitize_part_object xss part Hnd).
Defined.

Lemma sanitize_is_shallow_witness :
  let xss := fun s => if s =? "<script>" then "&lt;script&gt;" else s in
  let body :=
    [ ("title", Str "<script>");
      ("author", Object [("name", Str "<script>")]) ] in
  NoDup (map fst body)
  /\ lookup "author" body = Some (Object [("name", Str "<script>")])
  /\ lookup "author" (SanitizeInput.sanitize_properties xss body)
     = Some (Object [("name", Str "<script>")]).
Proof.
  intros xss body.
  assert (Hnd : NoDup (map fst body)).
  { repeat constructor; simpl; intuition discriminate. }
  split; [exact Hnd|]. split; [reflexivity|].
  apply (sanitize_is_shallow xss body "author" _ Hnd eq_refl).
  intros s. discriminate.
Defined.

Lemma sanitize_properties_idempotent_witness :
  let xss := fun s => if s =? "<script>" then "&lt;script&gt;" else s in
  let body := [("title", Str "<script>"); ("views", Number 3)] in
  (forall s, xss (xss s) = xss s)
  /\ NoDup (map fst body)
  /\ SanitizeInput.sanitize_properties xss
       (SanitizeInput.sanitize_properties xss body)
     = SanitizeInput.sanitize_properties xss body.
Proof.
  intros xss body.
  assert (Hx : forall s, xss (xss s) = xss s).
  { intros s. unfold xss. destruct (s =? "<script>") eqn:E.
    - reflexivity.
    - rewrite E. reflexivity. }
  assert (Hnd : NoDup (map fst body)).
  { repeat constructor; simpl; intuition discriminate. }
  split; [exact Hx|]. split; [exact Hnd|].
  apply (sanitize_properties_idempotent xss body Hx Hnd).
Defined.

(** ** [RedisConnection] and [DatabaseConnection] *)

Section Connections.
Import Proc.

(** The test that opens [RedisConnection.connect]. *)
Lemma already_connecting_iff (status : string) :
  ((status =? "ready") || (status =? "connect")
   || (status =? "connecting"))%bool = false
  <-> status <> "ready" /\ status <> "connect" /\ status <> "connecting".
Proof.
  rewrite !orb_false_iff, !String.eqb_neq. tauto.
Qed.

(** X15: [RedisConnection.connect] either resolves, and then the flag
    [connected] is set, or rejects with the very error of the client's
    [connect], and then the flag is as it was; it rejects only when it
    called the client. *)
Theorem redis_connect_outcome (status : string) (client_connect : Attempt unit)
    (this : RedisConnection.t) :
  let r := RedisConnection.connect status client_connect this in
  (result r = Returned tt
   /\ RedisConnection.connected (state r) = true)
  \/ (exists error,
        client_connect = Failed error
        /\ result r = Raised error
        /\ state r = this
        /\ In RedisClientConnect (events r)).
Proof.
  unfold RedisConnection.connect.
  destruct ((status =? "ready") || (status =? "connect")
            || (status =? "connecting"))%bool.
  - left. split; reflexivity.
  - destruct client_connect as [[]|error].
    + left. split; reflexivity.
    + right. exists error. repeat split. simpl. left. reflexivity.
Qed.

(** X16: [RedisConnection.connect] calls the client's [connect] exactly
    when the client's status is none of "ready", "connect" and
    "connecting"; with one of these it resolves with the flag set, whatever
    the state of the connection is. *)
Theorem redis_connect_skips_client (status : string)
    (client_connect : Attempt unit) (this : RedisConnection.t) :
  let r := RedisConnection.connect status client_connect this in
  (In RedisClientConnect (events r)
   <-> status <> "ready" /\ status <> "connect" /\ status <> "connecting")
  /\ (status = "ready" \/ status = "connect" \/ status = "connecting" ->
      r = mkRun {| RedisConnection.connected := true |}
            [ConsoleLog ("[REDIS] Already " ++ status ++ ", skipping connect")]
            (Returned tt)).
Proof.
  unfold RedisConnection.connect.
  destruct ((status =? "ready") || (status =? "connect")
            || (status =? "connecting"))%bool eqn:Hs.
  - split.
    + split.
      * simpl. intros [H|[]]. discriminate.
      * intros H. apply already_connecting_iff in H.
        rewrite H in Hs. discriminate.
    + intros _. reflexivity.
  - apply already_connecting_iff in Hs. split.
    + split; [intros _; exact Hs|].
      intros _. destruct client_connect as [[]|error]; simpl; auto.
    + intros [H|[H|H]]; exfalso; tauto.
Qed.

Lemma redis_connect_skips_client_witness :
  let this := {| RedisConnection.connected := false |} in
  ("connecting" = "ready" \/ "connecting" = "connect"
   \/ "connecting" = "connecting")
  /\ RedisConnection.connect "connecting"
       (Failed (ThrownError "ECONNREFUSED" None)) this
     = mkRun {| RedisConnection.connected := true |}
         [ConsoleLog "[REDIS] Already connecting, skipping connect"]
         (Returned tt).
Proof.
  intros this.
  assert (H : "connecting" = "ready" \/ "connecting" = "connect"
              \/ "connecting" = "connecting") by (right; right; reflexivity).
  split; [exact H|].
  apply (proj2 (redis_connect_skips_client "connecting"
                  (Failed (ThrownError "ECONNREFUSED" None)) this) H).
Defined.

(** X17: [RedisConnection.disconnect] either resolves, and then the flag
    [connected] is cleared, or rejects with the very error of the client's
    [quit], and then the flag is still set, so that a later call tries
    again; it calls [quit] exactly when the flag was set. *)
Theorem redis_disconnect_outcome (client_quit : Attempt unit)
    (this : RedisConnection.t) :
  let r := RedisConnection.disconnect client_quit this in
  ((result r = Returned tt
    /\ RedisConnection.connected (state r) = false)
   \/ (exists error,
         client_quit = Failed error
         /\ result r = Raised error
         /\ RedisConnection.connected (state r) = true))
  /\ (In RedisClientQuit (events r)
      <-> RedisConnection.connected this = true).
Proof.
  destruct this as [[]]; destruct client_quit as [[]|error]; simpl.
  - split; [left; split; reflexivity|]. cbv. intuition.
  - split; [right; exists error; repeat split|]. cbv. intuition.
  - split; [left; split; reflexivity|]. cbv. intuition discriminate.
  - split; [left; split; reflexivity|]. cbv. intuition discriminate.
Qed.

(** X18: after a [disconnect] that resolved, a further [disconnect] does
    nothing: it neither calls the client nor prints, and it resolves. *)
Theorem redis_disconnect_twice (quit1 quit2 : Attempt unit)
    (this : RedisConnection.t) :
  result (RedisConnection.disconnect quit1 this) = Returned tt ->
  RedisConnection.disconnect quit2
    (state (RedisConnection.disconnect quit1 this))
  = mkRun (state (RedisConnection.disconnect quit1 this)) [] (Returned tt).
Proof.
  destruct this as [[]]; destruct quit1 as [[]|error]; simpl;
    try discriminate; intros _; reflexivity.
Qed.

Lemma redis_disconnect_twice_witness :
  let this := {| RedisConnection.connected := true |} in
  result (RedisConnection.disconnect (Fulfilled tt) this) = Returned tt
  /\ RedisConnection.disconnect (Failed (ThrownValue Null))
       (state (RedisConnection.disconnect (Fulfilled tt) this))
     = mkRun {| RedisConnection.connected := false |} [] (Returned tt).
Proof.
  intros this. split; [reflexivity|].
  apply (redis_disconnect_twice (Fulfilled tt) (Failed (ThrownValue Null))
           this eq_refl).
Defined.

(** X19: [DatabaseConnection.connect] never rejects: when
    [mongoose.connect] fails it prints the error's message ("Unknown error"
    for a value that is not an [Error]) and ends the process with code 1;
    [DatabaseConnection.disconnect] swallows the failure of
    [mongoose.disconnect] and always resolves. *)
Theorem database_connection_never_rejects (S : Type) (url : string)
    (mongoose_connect : Attempt string) (mongoose_disconnect : Attempt unit)
    (s : S) :
  let r := DatabaseConnection.connect url mongoose_connect s in
  (forall error, result r <> Raised error)
  /\ match mongoose_connect with
     | Fulfilled host =>
         r = mkRun s
               [MongooseConnect url; ConsoleLog ("MongoDB Connected: " ++ host)]
               (Returned tt)
     | Failed error =>
         r = mkRun s
               [ MongooseConnect url;
                 ConsoleError
                   ("Initial MongoDB connection error: "
                    ++ message_or error "Unknown error");
                 ProcessExit 1 ]
               (Exited 1)
     end
  /\ result (DatabaseConnection.disconnect mongoose_disconnect s)
     = Returned tt.
Proof.
  destruct mongoose_connect as [host|error];
    destruct mongoose_disconnect as [[]|error'];
    repeat split; discriminate.
Qed.

End Connections.

(** ** [ExpressServer.start] *)

Section StartProperties.
Import Proc.

Lemma missing_vars (env : Env) :
  filter (fun v => negb (env_truthy env v)) ["MONGODB_URI"; "JWT_SECRET"]
  = ((if env_truthy env "MONGODB_URI" then [] else ["MONGODB_URI"])
     ++ (if env_truthy env "JWT_SECRET" then [] else ["JWT_SECRET"]))%list.
Proof.
  simpl.
  destruct (env_truthy env "MONGODB_URI"), (env_truthy env "JWT_SECRET");
    reflexivity.
Qed.

Lemma env_truthy_value (env : Env) (v : string) :
  env_truthy env v = true <-> exists value, env v = Some value /\ value <> "".
Proof.
  unfold env_truthy. destruct (env v) as [value|].
  - rewrite negb_true_iff, String.eqb_neq. split.
    + intros H. exists value. split; [reflexivity | exact H].
    + intros (value' & Heq & H). injection Heq as <-. exact H.
  - split; [discriminate | intros (value & H & _); discriminate].
Qed.

(** X20: when [MONGODB_URI] or [JWT_SECRET] is unset or empty, [start]
    prints which of the two are missing, in that order, and ends the
    process with code 1 without touching MongoDB, Redis or the port. *)
Theorem start_missing_env (env : Env) (port : Z) (trace status : string)
    (mongoose_connect : Attempt string) (client_connect : Attempt unit)
    (listen : Attempt unit) (this : RedisConnection.t) :
  env_truthy env "MONGODB_URI" = false \/ env_truthy env "JWT_SECRET" = false ->
  Startup.start env port trace status mongoose_connect client_connect listen
    this
  = mkRun this
      [ ConsoleLog "🔧 Starting server initialization...";
        ConsoleLog
          ("❌ Failed to start server: Missing required environment variables: "
           ++ String.concat ", "
                ((if env_truthy env "MONGODB_URI" then [] else ["MONGODB_URI"])
                 ++ (if env_truthy env "JWT_SECRET" then []
                     else ["JWT_SECRET"]))%list);
        ConsoleLog ("Stack trace: " ++ trace);
        ProcessExit 1 ]
      (Exited 1).
Proof.
  intros H. unfold Startup.start. cbv zeta. rewrite missing_vars.
  destruct (env_truthy env "MONGODB_URI"), (env_truthy env "JWT_SECRET");
    try reflexivity.
  destruct H; discriminate.
Qed.

Lemma start_missing_env_witness :
  let env := env_of (Some "") None in
  let this := {| RedisConnection.connected := false |} in
  (env_truthy env "MONGODB_URI" = false \/ env_truthy env "JWT_SECRET" = false)
  /\ Startup.start env 3012 "Error at start" "wait" (Fulfilled "db.internal")
       (Fulfilled tt) (Fulfilled tt) this
     = mkRun this
         [ ConsoleLog "🔧 Starting server initialization...";
           ConsoleLog
             "❌ Failed to start server: Missing required environment variables: MONGODB_URI, JWT_SECRET";
           ConsoleLog "Stack trace: Error at start";
           ProcessExit 1 ]
         (Exited 1).
Proof.
  intros env this.
  assert (H : env_truthy env "MONGODB_URI" = false
              \/ env_truthy env "JWT_SECRET" = false) by (left; reflexivity).
  split; [exact H|].
  apply (start_missing_env env 3012 "Error at start" "wait"
           (Fulfilled "db.internal") (Fulfilled tt) (Fulfilled tt) this H).
Defined.

(** X21: [start] never rejects: it returns the server or ends the process
    with code 1.  It returns exactly when both variables are set,
    [mongoose.connect] succeeded, the Redis client was already connecting
    or its [connect] succeeded, and [listen] did not throw. *)
Theorem start_outcome (env : Env) (port : Z) (trace status : string)
    (mongoose_connect : Attempt string) (client_connect : Attempt unit)
    (listen : Attempt unit) (this : RedisConnection.t) :
  let r :=
    Startup.start env port trace status mongoose_connect client_connect
      listen this in
  (forall error, result r <> Raised error)
  /\ (result r = Returned tt \/ result r = Exited 1)
  /\ (result r = Returned tt
      <-> env_truthy env "MONGODB_URI" = true
          /\ env_truthy env "JWT_SECRET" = true
          /\ (exists host, mongoose_connect = Fulfilled host)
          /\ ((status = "ready" \/ status = "connect"
               \/ status = "connecting")
              \/ client_connect = Fulfilled tt)
          /\ listen = Fulfilled tt).
Proof.
  unfold Startup.start, RedisConnection.connect. cbv zeta.
  rewrite missing_vars.
  destruct (env_truthy env "MONGODB_URI"); [|cbn; intuition discriminate].
  destruct (env_truthy env "JWT_SECRET"); [|cbn; intuition discriminate].
  destruct mongoose_connect as [host|error];
    [|cbn; split; [discriminate|]; split; [right; reflexivity|];
      split; [discriminate|]; intros (_ & _ & (h & Hh) & _); discriminate].
  destruct ((status =? "ready") || (status =? "connect")
            || (status =? "connecting"))%bool eqn:Hs.
  - assert (Hst : status = "ready" \/ status = "connect"
                  \/ status = "connecting").
    { rewrite !orb_true_iff, !String.eqb_eq in Hs. tauto. }
    destruct listen as [[]|error]; cbn.
    + split; [discriminate|]. split; [left; reflexivity|].
      split; [intros _|reflexivity]. repeat split; eauto.
    + split; [discriminate|]. split; [right; reflexivity|].
      split; [discriminate|]. intros (_ & _ & _ & _ & H). discriminate.
  - apply already_connecting_iff in Hs.
    destruct client_connect as [[]|error].
    + destruct listen as [[]|error]; cbn.
      * split; [discriminate|]. split; [left; reflexivity|].
        split; [intros _|reflexivity]. repeat split; eauto.
      * split; [discriminate|]. split; [right; reflexivity|].
        split; [discriminate|]. intros (_ & _ & _ & _ & H). discriminate.
    + cbn. split; [discriminate|]. split; [right; reflexivity|].
      split; [discriminate|].
      intros (_ & _ & _ & [H|H] & _); [tauto | discriminate].
Qed.

Lemma start_outcome_witness :
  let env := env_of (Some "mongodb://db.internal/app") (Some "s3cret") in
  let this := {| RedisConnection.connected := false |} in
  (env_truthy env "MONGODB_URI" = true
   /\ env_truthy env "JWT_SECRET" = true
   /\ (exists host, Fulfilled "db.internal" = Fulfilled host)
   /\ (("wait" = "ready" \/ "wait" = "connect" \/ "wait" = "connecting")
       \/ Fulfilled tt = Fulfilled tt)
   /\ Fulfilled tt = Fulfilled tt)
  /\ result
       (Startup.start env 3012 "Error at start" "wait"
          (Fulfilled "db.internal") (Fulfilled tt) (Fulfilled tt) this)
     = Returned tt.
Proof.
  intros env this.
  assert (H : env_truthy env "MONGODB_URI" = true
              /\ env_truthy env "JWT_SECRET" = true
              /\ (exists host, Fulfilled "db.internal" = Fulfilled host)
              /\ (("wait" = "ready" \/ "wait" = "connect"
                   \/ "wait" = "connecting")
                  \/ @Fulfilled unit tt = Fulfilled tt)
              /\ @Fulfilled unit tt = Fulfilled tt).
  { repeat split; eauto. }
  split; [exact H|].
  apply (proj2 (proj2 (proj2 (start_outcome env 3012 "Error at start" "wait"
                                (Fulfilled "db.internal") (Fulfilled tt)
                                (Fulfilled tt) this))) H).
Defined.

(** Case analysis on a membership in a list of events that is written
    out. *)
Ltac event_cases H :=
  simpl in H;
  repeat match type of H with
         | _ \/ _ => destruct H as [H|H]
         end;
  try contradiction; try discriminate H.

(** X22: the steps of [start] are gated.  MongoDB is contacted only when
    both variables are set, and then with the value of [MONGODB_URI] (the
    built-in local URL is never used); the Redis client is called only
    after MongoDB connected; the port is opened only after both
    connections, on [this.port] and host "0.0.0.0", with the Redis flag
    set.  The line "MongoDB connection failed" of [start] is never
    printed, because [connectDB] does not reject. *)
Theorem start_gating (env : Env) (port : Z) (trace status : string)
    (mongoose_connect : Attempt string) (client_connect : Attempt unit)
    (listen : Attempt unit) (this : RedisConnection.t) :
  let r :=
    Startup.start env port trace status mongoose_connect client_connect
      listen this in
  (forall url, In (MongooseConnect url) (events r) ->
     env "MONGODB_URI" = Some url /\ url <> ""
     /\ env_truthy env "JWT_SECRET" = true)
  /\ (In RedisClientConnect (events r) ->
      exists host, mongoose_connect = Fulfilled host)
  /\ (forall p h, In (Listen p h) (events r) ->
      p = port /\ h = "0.0.0.0"
      /\ (exists host, mongoose_connect = Fulfilled host)
      /\ RedisConnection.connected (state r) = true)
  /\ (forall m,
      ~ In (ConsoleLog ("❌ MongoDB connection failed: " ++ m)) (events r)).
Proof.
  unfold Startup.start, RedisConnection.connect, DatabaseConnection.connectDB,
    DatabaseConnection.new.
  cbv zeta. rewrite missing_vars. unfold env_truthy.
  destruct (env "MONGODB_URI") as [u|];
    [destruct (u =? "") eqn:Eu|];
    (destruct (env "JWT_SECRET") as [j|]; [destruct (j =? "")|]);
    destruct mongoose_connect as [host|error];
    destruct ((status =? "ready") || (status =? "connect")
              || (status =? "connecting"))%bool;
    destruct client_connect as [[]|error'];
    destruct listen as [[]|error''];
    cbn;
    (split; [intros url H|split; [intros H|split; [intros p h H|intros m H]]]);
    event_cases H;
    try (injection H as <-);
    try (injection H as <- <-);
    repeat split; eauto;
    try (apply String.eqb_neq; assumption).
Qed.

Lemma start_gating_witness :
  let env := env_of (Some "mongodb://db.internal/app") (Some "s3cret") in
  let this := {| RedisConnection.connected := false |} in
  let r :=
    Startup.start env 3012 "Error at start" "wait" (Fulfilled "db.internal")
      (Failed (ThrownError "ECONNREFUSED" None)) (Fulfilled tt) this in
  In (MongooseConnect "mongodb://db.internal/app") (events r)
  /\ env "MONGODB_URI" = Some "mongodb://db.internal/app"
  /\ result r = Exited 1.
Proof.
  intros env this r.
  assert (H : In (MongooseConnect "mongodb://db.internal/app") (events r))
    by (cbn; auto).
  split; [exact H|]. split; [|reflexivity].
  apply (proj1 (start_gating env 3012 "Error at start" "wait"
                  (Fulfilled "db.internal")
                  (Failed (ThrownError "ECONNREFUSED" None)) (Fulfilled tt)
                  this) _ H).
Defined.

End StartProperties.
